(** * Street Art Fashion API (main.py): a shallow embedding and its properties

    The handlers of [main.py] are embedded as functions in a state-and-
    exception monad over a [World] (the module-level [db] handle and the
    process environment).  Python values stored in documents are an inductive
    type [pyval]; documents are finite maps from field names to values. *)

From Stdlib Require Import ZArith NArith List Bool Lia.
From Stdlib Require Import Strings.String Strings.Ascii DecimalString HexString.
From Stdlib Require Import Floats.SpecFloat.
From stdpp Require Import base option list gmap strings.

Local Open Scope Z_scope.
Local Open Scope string_scope.
Local Open Scope list_scope.

(** ** Python values *)

(** A Python [float] is an IEEE 754 binary64 number. *)
Definition prec : Z := 53.
Definition emax : Z := 1024.
Abbreviation float := spec_float.

Definition float_zero : float := S754_zero false.

(** [float(n)] for an [int]: round to nearest even, [OverflowError]
    ([None]) when the result does not fit a binary64. *)
Definition float_of_int (n : Z) : option float :=
  match binary_normalize prec emax n 0 false with
  | S754_infinity _ => None
  | f => Some f
  end.

(** [x >= 0] and [x < 0] on floats; both are [False] on NaN. *)
Definition float_ge0 (x : float) : bool := SFleb float_zero x.
Definition float_lt0 (x : float) : bool := SFltb x float_zero.

(** [math.isfinite(x)]: neither NaN nor an infinity, the floats that JSON
    can write. *)
Definition float_is_finite (x : float) : bool :=
  match x with
  | S754_zero _ | S754_finite _ _ _ => true
  | S754_infinity _ | S754_nan => false
  end.

(** The values a BSON document or a JSON body can hold, as far as the
    handlers look at them. An [ObjectId] is the number its bytes write. *)
#[warnings="-register-all"]
Inductive pyval : Type :=
| PNone
| PBool (b : bool)
| PInt (n : Z)
| PFloat (x : float)
| PStr (s : string)
| PList (l : list pyval)
| PDict (kvs : list (string * pyval))
| PObjectId (oid : N).

Abbreviation document := (gmap string pyval).

(** [bool(v)]: Python truthiness. *)
Definition py_bool (v : pyval) : bool :=
  match v with
  | PNone => false
  | PBool b => b
  | PInt n => negb (n =? 0)%Z
  | PFloat x => negb (SFeqb x float_zero)
  | PStr s => negb (String.eqb s EmptyString)
  | PList l => match l with [] => false | _ => true end
  | PDict kvs => match kvs with [] => false | _ => true end
  | PObjectId _ => true
  end.

(** [a or b]. *)
Definition py_or (a b : pyval) : pyval := if py_bool a then a else b.

(** [doc.get(key)] and [doc.get(key, default)]. *)
Definition dict_get (doc : document) (key : string) : pyval :=
  default PNone (doc !! key).
Definition dict_get_default (doc : document) (key : string) (dflt : pyval) : pyval :=
  default dflt (doc !! key).

(** [s[:n]] on a [str]: strings are UTF-8 byte sequences here, a slice
    counts code points, so continuation bytes (10xxxxxx) follow their lead
    byte without being counted. *)
Definition is_continuation (c : ascii) : bool :=
  let n := N_of_ascii c in (128 <=? n)%N && (n <? 192)%N.

Fixpoint str_prefix (n : nat) (s : string) : string :=
  match s with
  | EmptyString => EmptyString
  | String c rest =>
      if is_continuation c then String c (str_prefix n rest)
      else match n with
           | O => EmptyString
           | S n' => String c (str_prefix n' rest)
           end
  end.

(** ** Exceptions *)

Inductive exn : Type :=
| TypeError
| ValueError
| OverflowError
| AttributeError
| ValidationError (model : string)      (* pydantic *)
| InvalidId                             (* bson *)
| PyMongoError (msg : string)           (* a driver call made by main.py failed *)
| StoreUnavailable                      (* database.py: no connection *)
| StoreReadError (msg : string)         (* database.py: read failed *)
| StoreWriteError (msg : string)        (* database.py: write failed *)
| HTTPException (status_code : Z) (detail : string).

(** ** What main.py imports and does not define

    The text of Python's and the libraries' conversions, and the model class
    [schemas.Product], are not in main.py; the development holds for every
    choice of them. *)
Class Runtime : Type := {
  (** [float(s)] for a [str]; [None] is [ValueError]. *)
  float_of_str : string -> option float;
  (** [repr] of a float and of a str. *)
  repr_float : float -> string;
  repr_str : string -> string;
  (** [str(e)] for an exception. *)
  str_exn : exn -> string;
  (** [str(oid)] and [ObjectId(s)] of bson; [None] is [InvalidId]. *)
  str_oid : N -> string;
  parse_oid : string -> option N;
  parse_str_oid : forall n, parse_oid (str_oid n) = Some n;
  (** [schemas.Product(title=, description=, price=, category=, in_stock=)]:
      the validation error it raises, if any. *)
  ProductSchema : string -> option string -> float -> string -> bool -> option exn;
}.

(** ** State and exceptions

    A computation reads and writes a state and either returns or raises.
    Writes made before an exception is raised stay. *)
Definition M (S A : Type) : Type := S -> (exn + A) * S.

Definition ret {S A} (a : A) : M S A := fun s => (inr a, s).
Definition raise {S A} (e : exn) : M S A := fun s => (inl e, s).
Definition bind {S A B} (m : M S A) (k : A -> M S B) : M S B :=
  fun s => match m s with
           | (inl e, s') => (inl e, s')
           | (inr a, s') => k a s'
           end.
(** [try: body / except Exception as e: handler e]. *)
Definition try_except {S A} (body : M S A) (handler : exn -> M S A) : M S A :=
  fun s => match body s with
           | (inl e, s') => handler e s'
           | (inr a, s') => (inr a, s')
           end.
Definition get_state {S} : M S S := fun s => (inr s, s).
Definition modify {S} (f : S -> S) : M S unit := fun s => (inr tt, f s).
(** A pure computation that may raise. *)
Definition lift {S A} (r : exn + A) : M S A := fun s => (r, s).

Declare Scope py_scope.
Delimit Scope py_scope with py.
Notation "'let*' x := m 'in' k" := (bind m (fun x => k))
  (at level 10, x name, m at level 100, k at level 200) : py_scope.
Notation "m ;; k" := (bind m (fun _ => k))
  (at level 100, k at level 200, right associativity) : py_scope.
Local Open Scope py_scope.

(** [for x in xs: body x]. *)
Fixpoint for_each {S A} (xs : list A) (body : A -> M S unit) : M S unit :=
  match xs with
  | [] => ret tt
  | x :: rest => body x ;; for_each rest body
  end.

(** [[f(x) for x in xs]] for a pure [f] that may raise. *)
Fixpoint list_comp {A B} (f : A -> exn + B) (xs : list A) : exn + list B :=
  match xs with
  | [] => inr []
  | x :: rest =>
      match f x with
      | inl e => inl e
      | inr y => match list_comp f rest with
                 | inl e => inl e
                 | inr ys => inr (y :: ys)
                 end
      end
  end.

(** ** The document store

    [db] of database.py is a pymongo [Database] or [None]. A database holds
    its collections (documents in the store's natural order) and a schedule
    of the outcomes of the server round trips to come: [Some msg] makes the
    next round trip fail with that message, [None] or an exhausted schedule
    lets it through. *)
Record Database : Type := {
  name : option string;                       (* [db.name], if the handle has one *)
  colls : gmap string (list document);
  faults : list (option string);
}.

Record World : Type := {
  db : option Database;
  environ : gmap string string;               (* [os.environ] *)
}.

Definition set_db (d : Database) (w : World) : World :=
  {| db := Some d; environ := environ w |}.

(** [db[coll]]: a collection that was never written to is empty. *)
Definition collection (d : Database) (coll : string) : list document :=
  default [] (colls d !! coll).

(** One server round trip: consume the head of the schedule. *)
Definition after_round_trip (d : Database) : Database :=
  {| name := name d; colls := colls d; faults := tl (faults d) |}.
Definition round_trip (d : Database) : option string * Database :=
  (hd None (faults d), after_round_trip d).

(** The largest [ObjectId] in a collection, for generating a new one. *)
Definition doc_oid (doc : document) : N :=
  match doc !! "_id" with
  | Some (PObjectId n) => n
  | _ => 0%N
  end.
Definition max_oid (docs : list document) : N :=
  foldr (fun doc m => N.max (doc_oid doc) m) 0%N docs.
Definition fresh_oid (docs : list document) : N := N.succ (max_oid docs).

(** pymongo, as main.py calls it on a database that is not [None]. *)
Definition count_documents (coll : string) (d : Database) : (exn + Z) * Database :=
  match round_trip d with
  | (Some msg, d') => (inl (PyMongoError msg), d')
  | (None, d') => (inr (Z.of_nat (length (collection d' coll))), d')
  end.

Definition has_oid (oid : N) (doc : document) : bool :=
  match doc !! "_id" with
  | Some (PObjectId n) => (n =? oid)%N
  | _ => false
  end.

(** [db[coll].find_one({"_id": oid})]: the document or [None]. *)
Definition find_one (coll : string) (oid : N) (d : Database)
  : (exn + option document) * Database :=
  match round_trip d with
  | (Some msg, d') => (inl (PyMongoError msg), d')
  | (None, d') => (inr (List.find (has_oid oid) (collection d' coll)), d')
  end.

Definition list_collection_names (d : Database) : (exn + list string) * Database :=
  match round_trip d with
  | (Some msg, d') => (inl (PyMongoError msg), d')
  | (None, d') => (inr (map fst (map_to_list (colls d'))), d')
  end.

(** Store one document under a newly generated identifier. *)
Definition insert_one (coll : string) (doc : document) (d : Database) : N * Database :=
  let docs := collection d coll in
  let oid := fresh_oid docs in
  (oid, {| name := name d;
           colls := <[coll := docs ++ [<["_id" := PObjectId oid]> doc]]> (colls d);
           faults := faults d |}).

(** ** The pydantic models of main.py *)

(** [class ProductCreate(BaseModel)]: the fields with their declared types,
    the declared defaults ("streetwear", [True], [[]]) standing for what a
    body omits. [price] carries [Field(..., ge=0)], checked by
    [ProductCreate_validate]. *)
Record ProductCreate : Type := {
  title : string;
  description : option string;
  price : float;
  category : string;
  in_stock : bool;
  image : option string;
  colors : option (list string);
}.

(** [class ProductOut(ProductCreate)]: the inherited fields and [id: str]. *)
Record ProductOut : Type := {
  id : string;
  base : ProductCreate;
}.

(** The one field constraint of the model: [price >= 0]. *)
Definition ProductCreate_validate (model : string) (p : ProductCreate)
  : exn + ProductCreate :=
  if float_ge0 (price p) then inr p else inl (ValidationError model).

(** pydantic's validation of a value against [str], [Optional[str]] and
    [Optional[List[str]]]. *)
Definition validate_str (v : pyval) : option string :=
  match v with
  | PStr s => Some s
  | _ => None
  end.

Definition validate_optional_str (v : pyval) : option (option string) :=
  match v with
  | PNone => Some None
  | PStr s => Some (Some s)
  | _ => None
  end.

Fixpoint validate_list_str (l : list pyval) : option (list string) :=
  match l with
  | [] => Some []
  | v :: rest =>
      match validate_str v, validate_list_str rest with
      | Some s, Some ss => Some (s :: ss)
      | _, _ => None
      end
  end.

Definition validate_optional_list_str (v : pyval) : option (option (list string)) :=
  match v with
  | PNone => Some None
  | PList l => option_map Some (validate_list_str l)
  | _ => None
  end.

(** [ProductOut(id=, title=, description=, price=, category=, in_stock=,
    image=, colors=)], called with a [str] id, a [float] price and a [bool]
    in_stock as [serialize_product] does: one [ValidationError] when any
    field fails. *)
Definition ProductOut_init (id_ : string) (title_ description_ : pyval)
    (price_ : float) (category_ : pyval) (in_stock_ : bool)
    (image_ colors_ : pyval) : exn + ProductOut :=
  match validate_str title_, validate_optional_str description_,
        validate_str category_, validate_optional_str image_,
        validate_optional_list_str colors_ with
  | Some t, Some d, Some c, Some i, Some cs =>
      match ProductCreate_validate "ProductOut"
              {| title := t; description := d; price := price_; category := c;
                 in_stock := in_stock_; image := i; colors := cs |} with
      | inl e => inl e
      | inr b => inr {| id := id_; base := b |}
      end
  | _, _, _, _, _ => inl (ValidationError "ProductOut")
  end.

(** [payload.model_dump()]. *)
Definition dump_optional_str (o : option string) : pyval :=
  match o with
  | Some s => PStr s
  | None => PNone
  end.

Definition dump_optional_list_str (o : option (list string)) : pyval :=
  match o with
  | Some l => PList (map PStr l)
  | None => PNone
  end.

Definition model_dump (p : ProductCreate) : document :=
  list_to_map
    [("title", PStr (title p));
     ("description", dump_optional_str (description p));
     ("price", PFloat (price p));
     ("category", PStr (category p));
     ("in_stock", PBool (in_stock p));
     ("image", dump_optional_str (image p));
     ("colors", dump_optional_list_str (colors p))].

(** ** Conversions of Python *)

Definition float_of_bool (b : bool) : float :=
  if b then binary_normalize prec emax 1 0 false else float_zero.

Definition str_of_int (n : Z) : string := NilZero.string_of_int (Z.to_int n).

Fixpoint join (sep : string) (parts : list string) : string :=
  match parts with
  | [] => EmptyString
  | [s] => s
  | s :: rest => s +:+ sep +:+ join sep rest
  end.

Section Serialization.
Context `{Runtime}.

(** [float(v)]. *)
Definition py_float (v : pyval) : exn + float :=
  match v with
  | PBool b => inr (float_of_bool b)
  | PInt n => match float_of_int n with
              | Some x => inr x
              | None => inl OverflowError
              end
  | PFloat x => inr x
  | PStr s => match float_of_str s with
              | Some x => inr x
              | None => inl ValueError
              end
  | PNone | PList _ | PDict _ | PObjectId _ => inl TypeError
  end.

(** [repr(v)] and [str(v)]. *)
Fixpoint py_repr (v : pyval) : string :=
  match v with
  | PNone => "None"
  | PBool true => "True"
  | PBool false => "False"
  | PInt n => str_of_int n
  | PFloat x => repr_float x
  | PStr s => repr_str s
  | PList l => "[" +:+ join ", " (map py_repr l) +:+ "]"
  | PDict kvs =>
      "{" +:+ join ", " (map (fun kv => let (k, v) := kv : string * pyval in
                                        repr_str k +:+ ": " +:+ py_repr v) kvs)
          +:+ "}"
  | PObjectId oid => "ObjectId('" +:+ str_oid oid +:+ "')"
  end.

Definition py_str (v : pyval) : string :=
  match v with
  | PStr s => s
  | PObjectId oid => str_oid oid
  | _ => py_repr v
  end.

(** main.py, [serialize_product]. The keyword arguments are evaluated in
    order, so a failure of [float(...)] comes before the model's validation. *)
Definition serialize_product (doc : document) : exn + ProductOut :=
  let id_ := py_str (dict_get doc "_id") in
  let title_ := dict_get_default doc "title" (PStr EmptyString) in
  let description_ := dict_get doc "description" in
  match py_float (dict_get_default doc "price" (PInt 0)) with
  | inl e => inl e
  | inr price_ =>
      let category_ := dict_get_default doc "category" (PStr "streetwear") in
      let in_stock_ := py_bool (dict_get_default doc "in_stock" (PBool true)) in
      let image_ := dict_get doc "image" in
      let colors_ := py_or (dict_get doc "colors") (PList []) in
      ProductOut_init id_ title_ description_ price_ category_ in_stock_
        image_ colors_
  end.

End Serialization.

(** ** database.py *)

Section Handlers.
Context `{Runtime}.

(** Modelled from the spec: [create_document] of database.py, which is not
    among the sources. "insert(collectionName, document) -> identifier:
    persists document into the named collection, returns a newly generated
    unique identifier as a string. Fails with StoreUnavailable if no
    connection is established, or StoreWriteError on underlying failure." *)
Definition create_document (collection_name : string) (data : document)
  : M World string :=
  fun w =>
    match db w with
    | None => (inl StoreUnavailable, w)
    | Some d =>
        match round_trip d with
        | (Some msg, d') => (inl (StoreWriteError msg), set_db d' w)
        | (None, d') =>
            let '(oid, d'') := insert_one collection_name data d' in
            (inr (str_oid oid), set_db d'' w)
        end
    end.

(** Modelled from the spec: [get_documents] of database.py, which is not
    among the sources. "find(collectionName, filter, limit) -> sequence of
    documents: returns up to limit documents matching filter (empty filter =
    all), in store-defined order. Fails with StoreUnavailable /
    StoreReadError analogously." main.py only passes the empty filter, which
    is left out; a limit below 1 yields no document here, where the spec
    says nothing, so what is stated about the products of a listing is to be
    read for limits above 0. *)
Definition get_documents (collection_name : string) (limit : Z)
  : M World (list document) :=
  fun w =>
    match db w with
    | None => (inl StoreUnavailable, w)
    | Some d =>
        match round_trip d with
        | (Some msg, d') => (inl (StoreReadError msg), set_db d' w)
        | (None, d') =>
            (inr (firstn (Z.to_nat limit) (collection d' collection_name)),
             set_db d' w)
        end
    end.

(** A pymongo call [db.method(...)] or [db[...].method(...)] made by main.py:
    on [None] the attribute access or subscript raises [on_none]. *)
Definition driver {A} (on_none : exn)
    (call : Database -> (exn + A) * Database) : M World A :=
  fun w =>
    match db w with
    | None => (inl on_none, w)
    | Some d => let '(r, d') := call d in (r, set_db d' w)
    end.

(** ** main.py: seeding *)

(** A float literal with an integral value, such as [89.0]. *)
Definition float_lit (n : Z) : float := binary_normalize prec emax n 0 false.

Definition seed_item (title_ description_ : string) (price_ : Z)
    (category_ image_ : string) (colors_ : list string) : document :=
  list_to_map
    [("title", PStr title_);
     ("description", PStr description_);
     ("price", PFloat (float_lit price_));
     ("category", PStr category_);
     ("in_stock", PBool true);
     ("image", PStr image_);
     ("colors", PList (map PStr colors_))].

Definition seed_items : list document :=
  [ seed_item "Neon Graffiti Hoodie"
      "Oversized hoodie splashed with neon tags and glow ink." 89 "hoodies"
      "https://images.unsplash.com/photo-1512436991641-6745cdb1723f?q=80&w=1600&auto=format&fit=crop"
      ["#7C3AED"; "#06B6D4"; "#F59E0B"];
    seed_item "Street Halo Sneakers"
      "Chunky sneakers with iridescent spray gradients." 129 "sneakers"
      "https://images.unsplash.com/photo-1542291026-7eec264c27ff?q=80&w=1600&auto=format&fit=crop"
      ["#22D3EE"; "#A78BFA"; "#F472B6"];
    seed_item "Stickerbomb Cargo Pants"
      "Tactical cargos with removable sticker patches." 74 "pants"
      "https://images.unsplash.com/photo-1520975922284-5420f8d7c44a?q=80&w=1600&auto=format&fit=crop"
      ["#10B981"; "#F43F5E"; "#60A5FA"];
    seed_item "Drip Aura Cap"
      "6-panel cap with melting chrome embroidery." 39 "hats"
      "https://images.unsplash.com/photo-1517702145080-e0f9a3fd0c49?q=80&w=1600&auto=format&fit=crop"
      ["#FB7185"; "#34D399"; "#818CF8"] ].

(** main.py, [ensure_seed_products]. *)
Definition ensure_seed_products : M World unit :=
  fun w =>
    match db w with
    | None => ret tt w
    | Some _ =>
        (let* n := driver TypeError (count_documents "product") in
         if (n =? 0)%Z
         then for_each seed_items
                (fun item => create_document "product" item ;; ret tt)
         else ret tt) w
    end.

(** ** main.py: the product endpoints *)

(** [limit or 20] for [limit: Optional[int]]: [None] and [0] are falsy. *)
Definition limit_or_20 (limit : option Z) : Z :=
  match limit with
  | None => 20
  | Some n => if (n =? 0)%Z then 20 else n
  end.

(** main.py, [list_products]. *)
Definition list_products (limit : option Z) : M World (list ProductOut) :=
  ensure_seed_products ;;
  try_except
    (let* docs := get_documents "product" (limit_or_20 limit) in
     lift (list_comp serialize_product docs))
    (fun e => raise (HTTPException 500 (str_exn e))).

(** [ObjectId(new_id)]. *)
Definition ObjectId (s : string) : exn + N :=
  match parse_oid s with
  | Some oid => inr oid
  | None => inl InvalidId
  end.

(** [ProductSchema(...)], whose result is dropped. *)
Definition check_schema (payload : ProductCreate) : exn + unit :=
  match ProductSchema (title payload) (description payload) (price payload)
          (category payload) (in_stock payload) with
  | Some e => inl e
  | None => inr tt
  end.

(** main.py, [create_product]; [serialize_product(None)] fails on
    [None.get]. *)
Definition create_product (payload : ProductCreate) : M World ProductOut :=
  try_except
    (lift (check_schema payload) ;;
     let* new_id := create_document "product" (model_dump payload) in
     let* oid := lift (ObjectId new_id) in
     let* doc := driver TypeError (find_one "product" oid) in
     lift (match doc with
           | Some d => serialize_product d
           | None => inl AttributeError
           end))
    (fun e => raise (HTTPException 400 (str_exn e))).

(** ** main.py: the diagnostic endpoint *)

(** The [response] dict of [test_database]: its six keys. *)
Record Report : Type := {
  backend : string;
  database : string;
  database_url : option string;
  database_name : option string;
  connection_status : string;
  collections : list string;
}.

Definition set_database (v : string) (r : Report) : Report :=
  {| backend := backend r; database := v; database_url := database_url r;
     database_name := database_name r;
     connection_status := connection_status r; collections := collections r |}.
Definition set_database_url (v : option string) (r : Report) : Report :=
  {| backend := backend r; database := database r; database_url := v;
     database_name := database_name r;
     connection_status := connection_status r; collections := collections r |}.
Definition set_database_name (v : option string) (r : Report) : Report :=
  {| backend := backend r; database := database r;
     database_url := database_url r; database_name := v;
     connection_status := connection_status r; collections := collections r |}.
Definition set_connection_status (v : string) (r : Report) : Report :=
  {| backend := backend r; database := database r;
     database_url := database_url r; database_name := database_name r;
     connection_status := v; collections := collections r |}.
Definition set_collections (v : list string) (r : Report) : Report :=
  {| backend := backend r; database := database r;
     database_url := database_url r; database_name := database_name r;
     connection_status := connection_status r; collections := v |}.

(** The handler runs over the dict it fills in and the world. *)
Definition update (f : Report -> Report) : M (Report * World) unit :=
  modify (fun s => (f (fst s), snd s)).
Definition in_world {A} (m : M World A) : M (Report * World) A :=
  fun s => let '(r, w') := m (snd s) in (r, (fst s, w')).

(** [os.getenv(key)] in a condition: unset and empty are falsy. *)
Definition getenv_truthy (w : World) (key : string) : bool :=
  match environ w !! key with
  | Some v => negb (String.eqb v EmptyString)
  | None => false
  end.

Definition initial_report : Report :=
  {| backend := "✅ Running";
     database := "❌ Not Available";
     database_url := None;
     database_name := None;
     connection_status := "Not Connected";
     collections := [] |}.

(** main.py, [test_database]. *)
Definition test_database : M World Report :=
  fun w =>
    let run : M (Report * World) Report :=
      try_except
        (let* s := get_state in
         match db (snd s) with
         | Some d =>
             update (set_database "✅ Available") ;;
             update (set_database_url (Some "✅ Configured")) ;;
             update (set_database_name
                       (Some (match name d with
                              | Some n => n
                              | None => "✅ Connected"
                              end))) ;;
             update (set_connection_status "Connected") ;;
             try_except
               (let* names := in_world (driver AttributeError list_collection_names) in
                update (set_collections (firstn 10 names)) ;;
                update (set_database "✅ Connected & Working"))
               (fun e => update (set_database
                                   ("⚠️  Connected but Error: "
                                      +:+ str_prefix 50 (str_exn e))))
         | None => update (set_database "⚠️  Available but not initialized")
         end)
        (fun e => update (set_database
                            ("❌ Error: " +:+ str_prefix 50 (str_exn e)))) ;;
      let* s := get_state in
      update (set_database_url
                (Some (if getenv_truthy (snd s) "DATABASE_URL"
                       then "✅ Set" else "❌ Not Set"))) ;;
      update (set_database_name
                (Some (if getenv_truthy (snd s) "DATABASE_NAME"
                       then "✅ Set" else "❌ Not Set"))) ;;
      let* s := get_state in
      ret (fst s)
    in
    let '(r, s') := run (initial_report, w) in (r, snd s').

(** ** The framework around the handlers

    FastAPI answers 200 with the returned value, the status and detail of a
    raised [HTTPException], and, no handler for other exceptions being
    registered on [app], 500 with the plain text "Internal Server Error" for
    any other exception. A body that fails the validation of the parameter's
    model is answered 422 with the list of errors, and the handler is not
    called; the list echoes the rejected input, so when that is a NaN or an
    infinity, which JSON cannot write, rendering the 422 fails and the answer
    is the plain 500. *)
Inductive Body (A : Type) : Type :=
| Json (value : A)
| JsonDetail (detail : string)
| JsonValidationErrors
| PlainInternalServerError.
Arguments Json {A} value.
Arguments JsonDetail {A} detail.
Arguments JsonValidationErrors {A}.
Arguments PlainInternalServerError {A}.

Record Response (A : Type) : Type := {
  status : Z;
  body : Body A;
}.
Arguments status {A} r.
Arguments body {A} r.

Definition respond {A} (r : exn + A) : Response A :=
  match r with
  | inr a => {| status := 200; body := Json a |}
  | inl (HTTPException code detail) => {| status := code; body := JsonDetail detail |}
  | inl _ => {| status := 500; body := PlainInternalServerError |}
  end.

Definition serve {A} (handler : M World A) (w : World) : Response A * World :=
  let '(r, w') := handler w in (respond r, w').

(** [@app.get("/test")], [@app.get("/api/products")] and
    [@app.post("/api/products")]. *)
Definition GET_test : World -> Response Report * World := serve test_database.

Definition GET_api_products (limit : option Z)
  : World -> Response (list ProductOut) * World :=
  serve (list_products limit).

Definition request_validation_response {A} (rejected : float) : Response A :=
  if float_is_finite rejected
  then {| status := 422; body := JsonValidationErrors |}
  else {| status := 500; body := PlainInternalServerError |}.

Definition POST_api_products (payload : ProductCreate) (w : World)
  : Response ProductOut * World :=
  match ProductCreate_validate "ProductCreate" payload with
  | inl _ => (request_validation_response (price payload), w)
  | inr p => serve (create_product p) w
  end.

End Handlers.

Arguments Json {A} value.
Arguments JsonDetail {A} detail.
Arguments JsonValidationErrors {A}.
Arguments PlainInternalServerError {A}.
Arguments status {A} r.
Arguments body {A} r.

(** ** One runtime, to run the handlers on concrete inputs

    It reads integer literals only as floats, prints an exception as the
    message it carries or as its class name, and writes an [ObjectId] in
    hexadecimal; its [schemas.Product] asks for a non-negative price. *)
Definition sample_float_of_str (s : string) : option float :=
  match NilZero.int_of_string s with
  | Some n => float_of_int (Z.of_int n)
  | None => None
  end.

Definition sample_str_exn (e : exn) : string :=
  match e with
  | TypeError => "TypeError"
  | ValueError => "ValueError"
  | OverflowError => "OverflowError"
  | AttributeError => "AttributeError"
  | ValidationError model => "validation error for " +:+ model
  | InvalidId => "InvalidId"
  | PyMongoError msg | StoreReadError msg | StoreWriteError msg => msg
  | StoreUnavailable => "Database not available"
  | HTTPException code detail => detail
  end.

Definition sample_schema (title_ : string) (description_ : option string)
    (price_ : float) (category_ : string) (in_stock_ : bool) : option exn :=
  if float_ge0 price_ then None else Some (ValidationError "Product").

#[local] Instance sample_runtime : Runtime := {|
  float_of_str := sample_float_of_str;
  repr_float := fun _ => "<float>";
  repr_str := fun s => "'" +:+ s +:+ "'";
  str_exn := sample_str_exn;
  str_oid := HexString.of_N;
  parse_oid := fun s => Some (HexString.to_N s);
  parse_str_oid := fun n => f_equal Some (HexString.to_N_of_N n);
  ProductSchema := sample_schema;
|}.

(** A connected database with no collection and no failure to come, and the
    world around it; a world whose [db] is [None]. *)
Definition empty_database : Database :=
  {| name := Some "shop"; colls := ∅; faults := [] |}.
Definition fresh_world : World :=
  {| db := Some empty_database; environ := ∅ |}.
Definition offline_world : World :=
  {| db := None; environ := ∅ |}.

Definition sample_payload : ProductCreate :=
  {| title := "Tag Tee"; description := None; price := float_lit 25;
     category := "streetwear"; in_stock := true; image := None;
     colors := Some ["#000000"; "#FFFFFF"] |}.

(** The bodies [{"title": "Tag Tee", "price": -5}],
    [{"title": "Tag Tee", "price": -Infinity}] and
    [{"title": "Tag Tee", "price": 25, "colors": null}]. *)
Definition negative_price_payload : ProductCreate :=
  {| title := "Tag Tee"; description := None; price := float_lit (-5);
     category := "streetwear"; in_stock := true; image := None;
     colors := Some [] |}.
Definition minus_infinity_payload : ProductCreate :=
  {| title := "Tag Tee"; description := None; price := S754_infinity true;
     category := "streetwear"; in_stock := true; image := None;
     colors := Some [] |}.
Definition null_colors_payload : ProductCreate :=
  {| title := "Tag Tee"; description := None; price := float_lit 25;
     category := "streetwear"; in_stock := true; image := None;
     colors := None |}.

(** Stored documents: [{"title": "Tag Tee", "price": None}],
    [{"title": "Tag Tee", "price": -5.0}], [{"title": "Tag Tee"}] and
    [{"title": "Tag Tee", "price": 25, "colors": 0}]. *)
Definition null_price_doc : document :=
  list_to_map [("title", PStr "Tag Tee"); ("price", PNone)].
Definition negative_price_doc : document :=
  list_to_map [("title", PStr "Tag Tee"); ("price", PFloat (float_lit (-5)))].
Definition title_only_doc : document :=
  list_to_map [("title", PStr "Tag Tee")].
Definition zero_colors_doc : document :=
  list_to_map [("title", PStr "Tag Tee"); ("price", PInt 25); ("colors", PInt 0)].

(** ** The documents that serialize, and what they serialize to *)

Section Serializable.
Context `{Runtime}.

(** The documents [serialize_product] accepts, field by field, in the words
    of the data model: a stored value of the declared type, or no value. *)
Definition str_or_absent (o : option pyval) : bool :=
  match o with
  | None | Some (PStr _) => true
  | Some _ => false
  end.

Definition optional_str_field (o : option pyval) : bool :=
  match o with
  | None | Some PNone | Some (PStr _) => true
  | Some _ => false
  end.

Definition is_str (v : pyval) : bool :=
  match v with
  | PStr _ => true
  | _ => false
  end.

Definition colors_field (o : option pyval) : bool :=
  match o with
  | None => true
  | Some (PList l) => forallb is_str l
  | Some v => negb (py_bool v)
  end.

Definition price_field (o : option pyval) : bool :=
  match o with
  | None => true
  | Some v => match py_float v with
              | inr x => float_ge0 x
              | inl _ => false
              end
  end.

Definition serializable (doc : document) : bool :=
  price_field (doc !! "price")
  && str_or_absent (doc !! "title")
  && optional_str_field (doc !! "description")
  && str_or_absent (doc !! "category")
  && optional_str_field (doc !! "image")
  && colors_field (doc !! "colors").

(** What each field of the result is, read off the stored document. *)
Definition title_of (doc : document) : string :=
  match doc !! "title" with
  | Some (PStr s) => s
  | _ => EmptyString
  end.

Definition category_of (doc : document) : string :=
  match doc !! "category" with
  | Some (PStr s) => s
  | _ => "streetwear"
  end.

Definition optional_str_of (o : option pyval) : option string :=
  match o with
  | Some (PStr s) => Some s
  | _ => None
  end.

Definition in_stock_of (doc : document) : bool :=
  match doc !! "in_stock" with
  | Some v => py_bool v
  | None => true
  end.

Fixpoint strs_of (l : list pyval) : list string :=
  match l with
  | [] => []
  | PStr s :: rest => s :: strs_of rest
  | _ :: rest => strs_of rest
  end.

Definition colors_of (doc : document) : list string :=
  match doc !! "colors" with
  | Some (PList l) => strs_of l
  | _ => []
  end.

Definition price_of (doc : document) : float :=
  match doc !! "price" with
  | Some v => match py_float v with
              | inr x => x
              | inl _ => float_zero
              end
  | None => float_zero
  end.

(** The Product a serializable document is turned into. *)
Definition expected_product (doc : document) : ProductOut :=
  {| id := py_str (default PNone (doc !! "_id"));
     base := {| title := title_of doc;
                description := optional_str_of (doc !! "description");
                price := price_of doc;
                category := category_of doc;
                in_stock := in_stock_of doc;
                image := optional_str_of (doc !! "image");
                colors := Some (colors_of doc) |} |}.

End Serializable.

(** ** Healthy stores *)

(** The next [n] round trips of the database go through. *)
Definition no_fault (outcome : option string) : bool :=
  match outcome with
  | None => true
  | Some _ => false
  end.
Definition healthy (n : nat) (d : Database) : bool :=
  forallb no_fault (firstn n (faults d)).

(** The collection after its documents were inserted one by one. *)
Fixpoint insert_all (docs items : list document) : list document :=
  match items with
  | [] => docs
  | item :: rest =>
      insert_all (docs ++ [<["_id" := PObjectId (fresh_oid docs)]> item]) rest
  end.

(** The database after [items] were inserted into [coll], one round trip
    each. *)
Fixpoint insert_many (coll : string) (items : list document) (d : Database)
  : Database :=
  match items with
  | [] => d
  | item :: rest =>
      insert_many coll rest (snd (insert_one coll item (after_round_trip d)))
  end.

(** The seed documents as stored in an empty collection: identifiers 1 to 4
    in the order of [seed_items]. *)
Definition seeded_products : list document :=
  imap (fun i item => <["_id" := PObjectId (N.of_nat (S i))]> item) seed_items.

(** A document holds a value other than [None] under each of the seven
    fields of a product. *)
Definition product_fields : list string :=
  ["title"; "description"; "price"; "category"; "in_stock"; "image"; "colors"].
Definition fully_populated (doc : document) : bool :=
  forallb (fun key => match doc !! key with
                      | None | Some PNone => false
                      | Some _ => true
                      end) product_fields.

(** The product that creating [payload] under identifier [oid] returns. *)
Definition created_product `{Runtime} (oid : N) (payload : ProductCreate)
  : ProductOut :=
  {| id := str_oid oid;
     base := {| title := title payload;
                description := description payload;
                price := price payload;
                category := category payload;
                in_stock := in_stock payload;
                image := image payload;
                colors := Some (default [] (colors payload)) |} |}.

(** ** Further inputs *)

(** [len(s)]: the number of code points of a [str]. *)
Fixpoint str_len (s : string) : nat :=
  match s with
  | EmptyString => O
  | String c rest => if is_continuation c then str_len rest else S (str_len rest)
  end.

(** The keys [serialize_product] reads. *)
Definition serialized_keys : list string :=
  "_id" :: product_fields.

(** A connected database with no collection whose round trips follow the
    given schedule, and one that holds the given products. *)
Definition scheduled_world (schedule : list (option string)) : World :=
  {| db := Some {| name := Some "shop"; colls := ∅; faults := schedule |};
     environ := ∅ |}.
Definition stocked_database (docs : list document) : Database :=
  {| name := Some "shop"; colls := {["product" := docs]}; faults := [] |}.
Definition stocked_world (docs : list document) : World :=
  {| db := Some (stocked_database docs); environ := ∅ |}.

(** * Properties *)

(** ** Floats *)

Lemma float_lt0_not_ge0 (x : float) : float_lt0 x = true -> float_ge0 x = false.
Proof.
  unfold float_lt0, float_ge0, SFltb, SFleb, float_zero.
  destruct x as [s | s | | s m e]; simpl; try discriminate;
    destruct s; simpl; congruence.
Qed.

(** ** Serialization *)

Section SerializationFacts.
Context `{Runtime}.

Lemma validate_list_str_Some l :
  forallb is_str l = true -> validate_list_str l = Some (strs_of l).
Proof.
  induction l as [| v l IH]; simpl; [reflexivity |].
  destruct v; simpl; try discriminate.
  intros Hl. rewrite (IH Hl). reflexivity.
Qed.

Lemma validate_list_str_inv l ss :
  validate_list_str l = Some ss -> forallb is_str l = true /\ l = map PStr ss.
Proof.
  revert ss. induction l as [| v l IH]; simpl; intros ss Hv.
  - injection Hv as <-. auto.
  - destruct v; simpl in Hv; try discriminate.
    destruct (validate_list_str l) as [ss' |]; [| discriminate].
    injection Hv as <-. destruct (IH ss' eq_refl) as [-> ->]. auto.
Qed.

Lemma title_accepted o dflt :
  str_or_absent o = true ->
  validate_str (default (PStr dflt) o)
  = Some (match o with Some (PStr s) => s | _ => dflt end).
Proof. destruct o as [[] |]; simpl; congruence. Qed.

Lemma title_rejected o dflt :
  str_or_absent o = false -> validate_str (default (PStr dflt) o) = None.
Proof. destruct o as [[] |]; simpl; congruence. Qed.

Lemma optional_str_accepted o :
  optional_str_field o = true ->
  validate_optional_str (default PNone o) = Some (optional_str_of o).
Proof. destruct o as [[] |]; simpl; congruence. Qed.

Lemma optional_str_rejected o :
  optional_str_field o = false -> validate_optional_str (default PNone o) = None.
Proof. destruct o as [[] |]; simpl; congruence. Qed.

Lemma colors_accepted o :
  colors_field o = true ->
  validate_optional_list_str (py_or (default PNone o) (PList []))
  = Some (Some (match o with Some (PList l) => strs_of l | _ => [] end)).
Proof.
  unfold py_or. destruct o as [v |]; [| reflexivity].
  destruct v as [| b | n | x | s | l | kvs | oid]; cbn [colors_field default Datatypes.id].
  - reflexivity.
  - destruct b; simpl; [discriminate | reflexivity].
  - simpl. destruct (n =? 0)%Z; simpl; [reflexivity | discriminate].
  - simpl. destruct (SFeqb x float_zero); simpl; [reflexivity | discriminate].
  - simpl. destruct (String.eqb s EmptyString); simpl; [reflexivity | discriminate].
  - intros Hl. destruct l as [| v l]; [reflexivity |].
    cbn [py_bool]. unfold validate_optional_list_str.
    rewrite (validate_list_str_Some _ Hl). reflexivity.
  - destruct kvs; simpl; [reflexivity | discriminate].
  - discriminate.
Qed.

Lemma colors_rejected o :
  colors_field o = false ->
  validate_optional_list_str (py_or (default PNone o) (PList [])) = None.
Proof.
  unfold py_or. destruct o as [v |]; [| discriminate].
  destruct v as [| b | n | x | s | l | kvs | oid]; cbn [colors_field default Datatypes.id].
  - discriminate.
  - destruct b; simpl; [reflexivity | discriminate].
  - simpl. destruct (n =? 0)%Z; simpl; [discriminate | reflexivity].
  - simpl. destruct (SFeqb x float_zero); simpl; [discriminate | reflexivity].
  - simpl. destruct (String.eqb s EmptyString); simpl; [discriminate | reflexivity].
  - intros Hl. destruct l as [| v l]; [discriminate |].
    cbn [py_bool]. unfold validate_optional_list_str.
    destruct (validate_list_str (v :: l)) as [ss |] eqn:Hv; [| reflexivity].
    apply validate_list_str_inv in Hv. destruct Hv as [Hv _]. congruence.
  - destruct kvs; simpl; [discriminate | reflexivity].
  - reflexivity.
Qed.

Lemma price_accepted doc :
  price_field (doc !! "price") = true ->
  py_float (dict_get_default doc "price" (PInt 0)) = inr (price_of doc)
  /\ float_ge0 (price_of doc) = true.
Proof.
  unfold price_field, price_of, dict_get_default.
  destruct (doc !! "price") as [v |]; simpl.
  - destruct (py_float v) as [e | x]; [discriminate | auto].
  - intros _. split; reflexivity.
Qed.

Lemma serialize_product_accepts doc :
  serializable doc = true -> serialize_product doc = inr (expected_product doc).
Proof.
  unfold serializable. rewrite !andb_true_iff.
  intros [[[[[Hp Ht] Hd] Hc] Hi] Hcs].
  destruct (price_accepted doc Hp) as [Hfloat Hge].
  unfold serialize_product. rewrite Hfloat.
  unfold ProductOut_init, dict_get, dict_get_default.
  rewrite (title_accepted _ EmptyString Ht), (optional_str_accepted _ Hd),
    (title_accepted _ "streetwear" Hc), (optional_str_accepted _ Hi),
    (colors_accepted _ Hcs).
  unfold ProductCreate_validate. cbn [price]. rewrite Hge.
  unfold expected_product, in_stock_of.
  destruct (doc !! "in_stock"); reflexivity.
Qed.

Lemma serialize_product_rejects doc :
  serializable doc = false -> exists e, serialize_product doc = inl e.
Proof.
  unfold serializable, serialize_product, price_field.
  unfold ProductOut_init, ProductCreate_validate, dict_get, dict_get_default.
  cbn [price].
  destruct (doc !! "price") as [v |]; cbn [default Datatypes.id].
  2: change (py_float (PInt 0)) with (@inr exn float float_zero);
     change (float_ge0 float_zero) with true.
  1: destruct (py_float v) as [e | x]; [eauto |];
     destruct (float_ge0 x); cbn [andb]; [| repeat case_match; eauto].
  all: destruct (str_or_absent (doc !! "title")) eqn:Ht; cbn [andb];
    [| rewrite (title_rejected _ EmptyString Ht); eauto].
  all: destruct (optional_str_field (doc !! "description")) eqn:Hd; cbn [andb];
    [| rewrite (optional_str_rejected _ Hd); repeat case_match; eauto].
  all: destruct (str_or_absent (doc !! "category")) eqn:Hc; cbn [andb];
    [| rewrite (title_rejected _ "streetwear" Hc); repeat case_match; eauto].
  all: destruct (optional_str_field (doc !! "image")) eqn:Hi; cbn [andb];
    [| rewrite (optional_str_rejected _ Hi); repeat case_match; eauto].
  all: intros Hcs; rewrite (colors_rejected _ Hcs); repeat case_match; eauto.
Qed.

Lemma serialize_product_inv doc p :
  serialize_product doc = inr p ->
  serializable doc = true /\ p = expected_product doc.
Proof.
  intros Hs. destruct (serializable doc) eqn:Hok.
  - rewrite (serialize_product_accepts doc Hok) in Hs. injection Hs as <-. auto.
  - destruct (serialize_product_rejects doc Hok) as [e He]. congruence.
Qed.

(** C2 (as amended). [serialize_product] has no side effect, and it returns
    a Product exactly for the documents whose price is absent or converts by
    [float()] to a number that is at least 0, whose title and category are
    absent or strings, whose description and image are absent, null or
    strings, and whose colors is falsy or a list of strings; on every other
    document it raises. *)
Theorem serialize_product_total_on_serializable (doc : document) :
  (serializable doc = true <-> exists p, serialize_product doc = inr p)
  /\ (serializable doc = false <-> exists e, serialize_product doc = inl e)
  /\ (forall w : World,
        lift (serialize_product doc) w = (serialize_product doc, w)).
Proof.
  split; [| split].
  - split.
    + intros Hok. eexists. apply serialize_product_accepts, Hok.
    + intros [p Hp]. apply (serialize_product_inv doc p Hp).
  - split.
    + apply serialize_product_rejects.
    + intros [e He]. destruct (serializable doc) eqn:Hok; [| reflexivity].
      rewrite (serialize_product_accepts doc Hok) in He. discriminate.
  - reflexivity.
Qed.

(** C6 (as amended). For every stored document that serializes (see C2), the
    Product has the stored title or the empty string if absent, the [float()] of the stored
    price or of 0 if absent, the stored category or "streetwear" if absent,
    the truth value of the stored in_stock or true if absent, the stored
    list of colors or the empty list if absent or null, never null, and the
    stored description and image as they are, null when absent. *)
Theorem serialize_product_defaulting (doc : document) :
  serializable doc = true ->
  exists p, serialize_product doc = inr p
    /\ PStr (title (base p)) = default (PStr EmptyString) (doc !! "title")
    /\ py_float (default (PInt 0) (doc !! "price")) = inr (price (base p))
    /\ PStr (category (base p)) = default (PStr "streetwear") (doc !! "category")
    /\ in_stock (base p) = py_bool (default (PBool true) (doc !! "in_stock"))
    /\ (exists l, colors (base p) = Some l
          /\ match doc !! "colors" with
             | None | Some PNone => l = []
             | Some (PList stored) => map PStr l = stored
             | Some _ => True
             end)
    /\ dump_optional_str (description (base p)) = default PNone (doc !! "description")
    /\ dump_optional_str (image (base p)) = default PNone (doc !! "image").
Proof.
  intros Hok. exists (expected_product doc).
  split; [apply serialize_product_accepts, Hok |].
  revert Hok. unfold serializable. rewrite !andb_true_iff.
  intros [[[[[Hp Ht] Hd] Hc] Hi] Hcs].
  unfold expected_product, title_of, category_of, in_stock_of, colors_of.
  cbn [base title price category in_stock colors description image].
  repeat split.
  - destruct (doc !! "title") as [[] |]; simpl in *; congruence.
  - apply (price_accepted doc Hp).
  - destruct (doc !! "category") as [[] |]; simpl in *; congruence.
  - destruct (doc !! "in_stock"); reflexivity.
  - eexists. split; [reflexivity |].
    destruct (doc !! "colors") as [[| | | | | l | |] |]; simpl in *; auto.
    symmetry. apply validate_list_str_inv, validate_list_str_Some, Hcs.
  - destruct (doc !! "description") as [[] |]; simpl in *; congruence.
  - destruct (doc !! "image") as [[] |]; simpl in *; congruence.
Qed.

(** C10. On a document that serializes, every falsy stored colors (absent,
    null, false, 0, an empty string, an empty list) becomes the empty list, and the id is
    [str()] of what [doc.get("_id")] returns: the non-empty string "None"
    when _id is absent, which is no failure. *)
Theorem serialize_product_falsy_colors_and_id (doc : document) :
  serializable doc = true ->
  exists p, serialize_product doc = inr p
    /\ id p = py_str (default PNone (doc !! "_id"))
    /\ (doc !! "_id" = None -> id p = "None" /\ id p <> EmptyString)
    /\ (py_bool (default PNone (doc !! "colors")) = false ->
        colors (base p) = Some []).
Proof.
  intros Hok. exists (expected_product doc).
  split; [apply serialize_product_accepts, Hok |].
  unfold expected_product, colors_of. cbn [id base colors].
  split; [reflexivity |]. split.
  - intros ->. split; [reflexivity | discriminate].
  - destruct (doc !! "colors") as [[| | | | | [| v l] | |] |]; simpl;
      try reflexivity; discriminate.
Qed.

End SerializationFacts.

(** C2, counterexample: under no runtime does [serialize_product] return a
    Product for [{"title": "Tag Tee", "price": None}]; [float(None)] raises
    [TypeError]. *)
Lemma serialize_product_null_price_raises :
  ~ exists (R : Runtime) (p : ProductOut),
      serialize_product null_price_doc = inr p.
Proof. intros (R & p & Hp). vm_compute in Hp. discriminate. Qed.

(** C6, counterexample: under no runtime does [serialize_product] return a
    Product for [{"title": "Tag Tee", "price": -5.0}]; [ProductOut] inherits
    [ge=0] on price and raises a [ValidationError]. *)
Lemma serialize_product_negative_price_raises :
  ~ exists (R : Runtime) (p : ProductOut),
      serialize_product negative_price_doc = inr p.
Proof. intros (R & p & Hp). vm_compute in Hp. discriminate. Qed.

(** C6, witness: [{"title": "Tag Tee"}]. *)
Lemma serialize_product_defaulting_witness :
  serializable (H := sample_runtime) title_only_doc = true
  /\ exists p, serialize_product (H := sample_runtime) title_only_doc = inr p
       /\ title (base p) = "Tag Tee" /\ price (base p) = float_zero
       /\ category (base p) = "streetwear" /\ in_stock (base p) = true
       /\ colors (base p) = Some [] /\ description (base p) = None
       /\ image (base p) = None.
Proof.
  split; [reflexivity |].
  destruct (serialize_product_defaulting (H := sample_runtime) title_only_doc
              eq_refl)
    as (p & Hp & _).
  exists p. split; [exact Hp |].
  vm_compute in Hp. injection Hp as <-. repeat split.
Defined.

(** C10, witness: [{"title": "Tag Tee", "price": 25, "colors": 0}]. *)
Lemma serialize_product_falsy_colors_and_id_witness :
  serializable (H := sample_runtime) zero_colors_doc = true
  /\ exists p, serialize_product (H := sample_runtime) zero_colors_doc = inr p
       /\ id p = "None" /\ colors (base p) = Some [].
Proof.
  split; [reflexivity |].
  destruct (serialize_product_falsy_colors_and_id (H := sample_runtime)
              zero_colors_doc eq_refl)
    as (p & Hp & _ & Hid & Hcolors).
  exists p. split; [exact Hp |].
  split; [apply Hid; reflexivity | apply Hcolors; reflexivity].
Defined.

(** ** The store *)

Lemma set_db_same w d : db w = Some d -> set_db d w = w.
Proof. destruct w; unfold set_db; simpl; intros ->; reflexivity. Qed.

Lemma healthy_S n d :
  healthy (S n) d = true ->
  hd None (faults d) = None /\ healthy n (after_round_trip d) = true.
Proof.
  unfold healthy, after_round_trip. simpl.
  destruct (faults d) as [| [msg |] later]; simpl; try discriminate; auto.
  intros _. split; [reflexivity |]. destruct n; reflexivity.
Qed.

Lemma collection_after_round_trip d coll :
  collection (after_round_trip d) coll = collection d coll.
Proof. reflexivity. Qed.

Lemma collection_insert_one coll item d :
  collection (snd (insert_one coll item d)) coll
  = collection d coll ++ [<["_id" := PObjectId (fresh_oid (collection d coll))]> item].
Proof.
  unfold insert_one, collection at 1. simpl. rewrite lookup_insert_eq. reflexivity.
Qed.

Lemma collection_insert_many coll items d :
  collection (insert_many coll items d) coll
  = insert_all (collection d coll) items.
Proof.
  revert d. induction items as [| item rest IH]; intros d;
    cbn [insert_many insert_all]; [reflexivity |].
  rewrite IH, collection_insert_one, collection_after_round_trip. reflexivity.
Qed.

Lemma insert_many_other coll items d other :
  other <> coll -> colls (insert_many coll items d) !! other = colls d !! other.
Proof.
  intros Hne. revert d. induction items as [| item rest IH]; intros d; simpl;
    [reflexivity |].
  rewrite IH. unfold insert_one. simpl. apply lookup_insert_ne. congruence.
Qed.

Section StoreAdapter.
Context `{Runtime}.

Lemma create_document_healthy w d coll data :
  db w = Some d -> hd None (faults d) = None ->
  create_document coll data w
  = (inr (str_oid (fresh_oid (collection d coll))),
     set_db (snd (insert_one coll data (after_round_trip d))) w).
Proof.
  intros Hdb Hhd. unfold create_document, round_trip. rewrite Hdb, Hhd.
  reflexivity.
Qed.

Lemma for_each_create_healthy items w d coll :
  db w = Some d -> healthy (length items) d = true ->
  for_each items (fun item => create_document coll item ;; ret tt) w
  = (inr tt, set_db (insert_many coll items d) w).
Proof.
  revert w d. induction items as [| item rest IH]; intros w d Hdb Hok.
  - simpl. unfold ret. rewrite (set_db_same w d Hdb). reflexivity.
  - destruct (healthy_S _ _ Hok) as [Hhd Hrest].
    cbn [for_each]. unfold bind at 1. unfold bind at 1.
    rewrite (create_document_healthy w d coll item Hdb Hhd).
    unfold ret at 1.
    rewrite (IH _ (snd (insert_one coll item (after_round_trip d)))).
    + reflexivity.
    + reflexivity.
    + exact Hrest.
Qed.

End StoreAdapter.

(** ** Seeding *)

Lemma seed_items_inserted : insert_all [] seed_items = seeded_products.
Proof. vm_compute. reflexivity. Qed.

Section Seeding.
Context `{Runtime}.

Lemma ensure_seed_products_offline w :
  db w = None -> ensure_seed_products w = (inr tt, w).
Proof. intros Hdb. unfold ensure_seed_products. rewrite Hdb. reflexivity. Qed.

Lemma ensure_seed_products_count_fails w d msg :
  db w = Some d -> hd None (faults d) = Some msg ->
  ensure_seed_products w = (inl (PyMongoError msg), set_db (after_round_trip d) w).
Proof.
  intros Hdb Hhd. unfold ensure_seed_products. rewrite Hdb.
  unfold bind, driver, count_documents, round_trip. rewrite Hdb, Hhd.
  reflexivity.
Qed.

Lemma ensure_seed_products_nonempty w d :
  db w = Some d -> hd None (faults d) = None -> collection d "product" <> [] ->
  ensure_seed_products w = (inr tt, set_db (after_round_trip d) w).
Proof.
  intros Hdb Hhd Hne. unfold ensure_seed_products. rewrite Hdb.
  unfold bind, driver, count_documents, round_trip. rewrite Hdb, Hhd.
  rewrite collection_after_round_trip.
  destruct (collection d "product") as [| doc docs]; [congruence |].
  reflexivity.
Qed.

Lemma ensure_seed_products_empty_healthy w d :
  db w = Some d -> collection d "product" = [] -> healthy 5 d = true ->
  ensure_seed_products w
  = (inr tt, set_db (insert_many "product" seed_items (after_round_trip d)) w).
Proof.
  intros Hdb Hempty Hok. destruct (healthy_S _ _ Hok) as [Hhd Hrest].
  unfold ensure_seed_products. rewrite Hdb.
  unfold bind at 1, driver, count_documents, round_trip. rewrite Hdb, Hhd.
  rewrite collection_after_round_trip, Hempty.
  change (Z.of_nat (length []) =? 0)%Z with true. cbv iota.
  rewrite (for_each_create_healthy seed_items _ (after_round_trip d));
    [reflexivity | reflexivity | exact Hrest].
Qed.

Lemma seeded_collection d :
  collection d "product" = [] ->
  collection (insert_many "product" seed_items (after_round_trip d)) "product"
  = seeded_products.
Proof.
  intros Hempty.
  rewrite collection_insert_many, collection_after_round_trip, Hempty.
  apply seed_items_inserted.
Qed.

(** Whatever the fetch of [list_products] does, it writes nothing: it takes
    one round trip when connected. *)
Lemma fetch_state (limit : option Z) w :
  exists r,
    try_except
      (let* docs := get_documents "product" (limit_or_20 limit) in
       lift (list_comp serialize_product docs))
      (fun e => raise (HTTPException 500 (str_exn e))) w
    = (r, match db w with
          | Some d => set_db (after_round_trip d) w
          | None => w
          end).
Proof.
  unfold try_except, bind, get_documents, round_trip, lift, raise.
  destruct (db w) as [d |]; [| eauto].
  destruct (hd None (faults d)); [eauto |].
  destruct (list_comp _ _); eauto.
Qed.

Lemma healthy_S_intro n d :
  hd None (faults d) = None -> healthy n (after_round_trip d) = true ->
  healthy (S n) d = true.
Proof.
  unfold healthy, after_round_trip. simpl.
  destruct (faults d) as [| o later]; simpl; [reflexivity |].
  intros -> ->. reflexivity.
Qed.

Lemma for_each_create_inv items w w1 d coll :
  db w = Some d ->
  for_each items (fun item => create_document coll item ;; ret tt) w = (inr tt, w1) ->
  healthy (length items) d = true.
Proof.
  revert w d. induction items as [| item rest IH]; intros w d Hdb Hrun;
    [reflexivity |].
  cbn [for_each] in Hrun. unfold bind at 1 in Hrun. unfold bind at 1 in Hrun.
  destruct (hd None (faults d)) as [msg |] eqn:Hhd.
  - unfold create_document, round_trip in Hrun. rewrite Hdb, Hhd in Hrun.
    discriminate.
  - rewrite (create_document_healthy w d coll item Hdb Hhd) in Hrun.
    unfold ret at 1 in Hrun.
    apply healthy_S_intro; [exact Hhd |].
    apply (IH (set_db (snd (insert_one coll item (after_round_trip d))) w)
              (snd (insert_one coll item (after_round_trip d))) eq_refl Hrun).
Qed.

(** After a seeding that returns, a connected store has products. *)
Lemma ensure_seed_products_leaves_products w w1 d1 :
  ensure_seed_products w = (inr tt, w1) -> db w1 = Some d1 ->
  collection d1 "product" <> [].
Proof.
  intros Hseed Hdb1. destruct (db w) as [d |] eqn:Hdb.
  2: { rewrite (ensure_seed_products_offline w Hdb) in Hseed.
       injection Hseed as <-. congruence. }
  destruct (hd None (faults d)) as [msg |] eqn:Hhd.
  { rewrite (ensure_seed_products_count_fails w d msg Hdb Hhd) in Hseed.
    discriminate. }
  destruct (collection d "product") as [| doc docs] eqn:Hcoll.
  - assert (Hok : healthy 5 d = true).
    { apply healthy_S_intro; [exact Hhd |].
      revert Hseed. unfold ensure_seed_products. rewrite Hdb.
      unfold bind at 1, driver, count_documents, round_trip. rewrite Hdb, Hhd.
      rewrite collection_after_round_trip, Hcoll.
      change (Z.of_nat (length []) =? 0)%Z with true. cbv iota.
      intros Hrun.
      apply (for_each_create_inv seed_items (set_db (after_round_trip d) w) w1
               (after_round_trip d) "product" eq_refl Hrun). }
    rewrite (ensure_seed_products_empty_healthy w d Hdb Hcoll Hok) in Hseed.
    assert (Hw1 : w1 = set_db (insert_many "product" seed_items
                                 (after_round_trip d)) w) by congruence.
    subst w1. change (db (set_db ?x w)) with (Some x) in Hdb1.
    assert (Hd1 : d1 = insert_many "product" seed_items (after_round_trip d))
      by congruence.
    subst d1. rewrite (seeded_collection d Hcoll). discriminate.
  - rewrite (ensure_seed_products_nonempty w d Hdb Hhd) in Hseed;
      [| rewrite Hcoll; discriminate].
    assert (Hw1 : w1 = set_db (after_round_trip d) w) by congruence.
    subst w1. change (db (set_db ?x w)) with (Some x) in Hdb1.
    assert (Hd1 : d1 = after_round_trip d) by congruence.
    subst d1. rewrite collection_after_round_trip, Hcoll. discriminate.
Qed.

Lemma list_comp_length {A B} (f : A -> exn + B) xs ys :
  list_comp f xs = inr ys -> length ys = length xs.
Proof.
  revert ys. induction xs as [| x xs IH]; simpl; intros ys Hys.
  - injection Hys as <-. reflexivity.
  - destruct (f x); [discriminate |].
    destruct (list_comp f xs) as [| ys']; [discriminate |].
    injection Hys as <-. simpl. f_equal. apply IH. reflexivity.
Qed.

Lemma list_comp_In {A B} (f : A -> exn + B) xs ys x y :
  list_comp f xs = inr ys -> In x xs -> f x = inr y -> In y ys.
Proof.
  revert ys. induction xs as [| x' xs IH]; simpl; intros ys Hys Hin Hfx;
    [contradiction |].
  destruct (f x') as [| y'] eqn:Hfx'; [discriminate |].
  destruct (list_comp f xs) as [| ys']; [discriminate |].
  injection Hys as <-. destruct Hin as [-> | Hin].
  - left. congruence.
  - right. apply IH; auto.
Qed.

(** A listing that returns went through a seeding that returned, and holds
    the products of the first documents of the store as seeding left it. *)
Lemma list_products_inr limit w outs w' :
  list_products limit w = (inr outs, w') ->
  exists w1 d1,
    ensure_seed_products w = (inr tt, w1) /\ db w1 = Some d1
    /\ hd None (faults d1) = None
    /\ list_comp serialize_product
         (firstn (Z.to_nat (limit_or_20 limit)) (collection d1 "product"))
       = inr outs
    /\ w' = set_db (after_round_trip d1) w1.
Proof.
  unfold list_products. unfold bind at 1.
  destruct (ensure_seed_products w) as [[e | []] w1]; [discriminate |].
  unfold try_except, bind, get_documents, round_trip, lift, raise.
  destruct (db w1) as [d1 |] eqn:Hdb1; [| discriminate].
  destruct (hd None (faults d1)) eqn:Hhd; [discriminate |].
  rewrite collection_after_round_trip.
  destruct (list_comp _ _) as [| outs'] eqn:Hcomp; [discriminate |].
  intros [= <- <-]. exists w1, d1. repeat split; assumption.
Qed.

Lemma list_products_seed_raises limit w e w1 :
  ensure_seed_products w = (inl e, w1) -> list_products limit w = (inl e, w1).
Proof. intros Hseed. unfold list_products, bind. rewrite Hseed. reflexivity. Qed.

(** C3, at the failing input: when the first round trip of a connected store
    fails, the exception of [count_documents] leaves [list_products] as it
    is, the call to [ensure_seed_products] standing before the [try]; the
    answer is the 500 of the framework, in plain text and without a
    [detail]. *)
Theorem list_products_seeding_failure_propagates
    (limit : option Z) (d : Database) (env : gmap string string)
    (msg : string) (later : list (option string)) :
  let w := {| db := Some {| name := name d; colls := colls d;
                            faults := Some msg :: later |};
              environ := env |} in
  let w' := {| db := Some {| name := name d; colls := colls d;
                             faults := later |};
               environ := env |} in
  list_products limit w = (inl (PyMongoError msg), w')
  /\ GET_api_products limit w
     = ({| status := 500; body := PlainInternalServerError |}, w').
Proof.
  intros w w'.
  assert (Hrun : list_products limit w = (inl (PyMongoError msg), w')).
  { apply list_products_seed_raises.
    exact (ensure_seed_products_count_fails w
             {| name := name d; colls := colls d; faults := Some msg :: later |}
             msg eq_refl eq_refl). }
  split; [exact Hrun |].
  unfold GET_api_products, serve. rewrite Hrun. reflexivity.
Qed.

(** What the [try] of [list_products] does translate: once seeding has
    returned, the handler returns or raises [HTTPException] 500 with the
    text of the exception. *)
Lemma list_products_fetch_failure_is_500 limit w w1 r w' :
  ensure_seed_products w = (inr tt, w1) -> list_products limit w = (r, w') ->
  (exists outs, r = inr outs) \/ (exists e, r = inl (HTTPException 500 (str_exn e))).
Proof.
  intros Hseed. unfold list_products. unfold bind at 1. rewrite Hseed.
  unfold try_except, bind, get_documents, round_trip, lift, raise.
  destruct (db w1) as [d1 |]; [| intros [= <- _]; eauto].
  destruct (hd None (faults d1)); [intros [= <- _]; eauto |].
  destruct (list_comp _ _); intros [= <- _]; eauto.
Qed.

(** C4. On a connected store whose product collection is empty and whose
    next five round trips go through, [ensure_seed_products] inserts the four
    seed documents in their order and nothing else; on a store that has
    products it writes nothing; the four seed documents hold a value under
    each of the seven fields; and a first listing on an empty store leaves
    exactly these four documents. *)
Theorem ensure_seed_products_seeds_once (w : World) (d : Database) :
  db w = Some d ->
  (collection d "product" = [] -> healthy 5 d = true ->
   exists d', ensure_seed_products w = (inr tt, set_db d' w)
     /\ collection d' "product" = seeded_products
     /\ length (collection d' "product") = 4%nat
     /\ forall other, other <> "product" -> colls d' !! other = colls d !! other)
  /\ (collection d "product" <> [] ->
      exists r d', ensure_seed_products w = (r, set_db d' w)
        /\ colls d' = colls d)
  /\ (length seed_items = 4%nat /\ forallb fully_populated seed_items = true)
  /\ (collection d "product" = [] -> healthy 5 d = true -> forall limit,
      exists r d', list_products limit w = (r, set_db d' w)
        /\ collection d' "product" = seeded_products
        /\ length (collection d' "product") = 4%nat).
Proof.
  intros Hdb. split; [| split; [| split]].
  - intros Hempty Hok.
    exists (insert_many "product" seed_items (after_round_trip d)).
    split; [apply ensure_seed_products_empty_healthy; assumption |].
    rewrite (seeded_collection d Hempty).
    split; [reflexivity |]. split; [reflexivity |].
    intros other Hne. rewrite insert_many_other by exact Hne. reflexivity.
  - intros Hne. destruct (hd None (faults d)) as [msg |] eqn:Hhd.
    + eexists _, (after_round_trip d).
      split; [apply (ensure_seed_products_count_fails w d msg Hdb Hhd) |].
      reflexivity.
    + eexists _, (after_round_trip d).
      split; [apply (ensure_seed_products_nonempty w d Hdb Hhd Hne) |].
      reflexivity.
  - split; vm_compute; reflexivity.
  - intros Hempty Hok limit.
    pose proof (ensure_seed_products_empty_healthy w d Hdb Hempty Hok) as Hseed.
    unfold list_products. unfold bind at 1. rewrite Hseed.
    destruct (fetch_state limit
                (set_db (insert_many "product" seed_items (after_round_trip d)) w))
      as [r Hr].
    rewrite Hr. cbn [db set_db].
    eexists r, _. split; [reflexivity |].
    rewrite collection_after_round_trip, (seeded_collection d Hempty).
    split; reflexivity.
Qed.

End Seeding.

(** C4, witness: an empty connected store with no failure to come. *)
Lemma ensure_seed_products_seeds_once_witness :
  exists d',
    ensure_seed_products (H := sample_runtime) fresh_world
    = (inr tt, set_db d' fresh_world)
    /\ collection d' "product" = seeded_products
    /\ length (collection d' "product") = 4%nat.
Proof.
  destruct (proj1 (ensure_seed_products_seeds_once (H := sample_runtime)
                     fresh_world empty_database eq_refl) eq_refl eq_refl)
    as (d' & Hrun & Hcoll & Hlen & _).
  exists d'. split; [exact Hrun |]. split; [exact Hcoll | exact Hlen].
Defined.

(** ** Listing *)

Section Listing.
Context `{Runtime}.

(** C7 (as amended). A listing that returns holds at most [n] products when
    [limit] is a positive [n], and at most 20 when [limit] is omitted or 0;
    it is taken from the store as the seeding, which ran first and returned,
    left it. *)
Theorem list_products_at_most_limit
    (limit : option Z) (w w' : World) (outs : list ProductOut) :
  list_products limit w = (inr outs, w') ->
  (forall n, limit = Some n -> (0 < n)%Z -> (Z.of_nat (length outs) <= n)%Z)
  /\ (limit = None \/ limit = Some 0%Z -> (length outs <= 20)%nat)
  /\ exists w1 d1,
       ensure_seed_products w = (inr tt, w1) /\ db w1 = Some d1
       /\ list_comp serialize_product
            (firstn (Z.to_nat (limit_or_20 limit)) (collection d1 "product"))
          = inr outs.
Proof.
  intros Hrun.
  destruct (list_products_inr limit w outs w' Hrun)
    as (w1 & d1 & Hseed & Hdb1 & _ & Hcomp & _).
  pose proof (list_comp_length _ _ _ Hcomp) as Hlen.
  pose proof (firstn_le_length (Z.to_nat (limit_or_20 limit))
                (collection d1 "product")) as Hle.
  split; [| split].
  - intros n -> Hpos. unfold limit_or_20 in Hle, Hlen.
    destruct (Z.eqb_spec n 0); lia.
  - intros [-> | ->]; cbn [limit_or_20 Z.eqb] in Hle, Hlen; lia.
  - exists w1, d1. auto.
Qed.


End Listing.

(** C7, counterexample: with [limit=0] on an empty connected store the
    listing holds the four seed products, more than 0. *)
Lemma list_products_limit_zero_returns_four :
  exists outs w',
    list_products (H := sample_runtime) (Some 0%Z) fresh_world = (inr outs, w')
    /\ length outs = 4%nat /\ ~ (Z.of_nat (length outs) <= 0)%Z.
Proof.
  eexists _, _. split; [vm_compute; reflexivity |].
  split; [reflexivity | simpl; lia].
Qed.

(** C7, witness: [limit=2] on an empty connected store. *)
Lemma list_products_at_most_limit_witness :
  exists outs w',
    list_products (H := sample_runtime) (Some 2%Z) fresh_world = (inr outs, w')
    /\ (Z.of_nat (length outs) <= 2)%Z.
Proof.
  destruct (list_products (H := sample_runtime) (Some 2%Z) fresh_world)
    as [[e | outs] w'] eqn:Hrun; [vm_compute in Hrun; discriminate |].
  exists outs, w'. split; [reflexivity |].
  apply (proj1 (list_products_at_most_limit (H := sample_runtime)
                  (Some 2%Z) fresh_world w' outs Hrun) 2%Z eq_refl); lia.
Defined.

(** ** Creation: the rejected payloads *)

Section Rejection.
Context `{Runtime}.

(** C1 (as amended). A body whose price is below 0 fails the validation of
    [ProductCreate]: [create_product] is not called and the world, the store
    with it, is as it was; the answer is the 422 of the framework with its
    list of errors, not 400, when the price is finite, and the plain 500 of
    the framework when it is -Infinity. *)
Theorem post_negative_price_rejected (payload : ProductCreate) (w : World) :
  float_lt0 (price payload) = true ->
  POST_api_products payload w
  = (if float_is_finite (price payload)
     then {| status := 422; body := JsonValidationErrors |}
     else {| status := 500; body := PlainInternalServerError |}, w).
Proof.
  intros Hneg. unfold POST_api_products, ProductCreate_validate.
  rewrite (float_lt0_not_ge0 _ Hneg). reflexivity.
Qed.

End Rejection.

(** C1, counterexample: the body with price -5 is answered 422, not 400. *)
Lemma post_minus_five_is_not_400 :
  float_lt0 (price negative_price_payload) = true
  /\ status (fst (POST_api_products (H := sample_runtime)
                    negative_price_payload fresh_world)) = 422%Z
  /\ status (fst (POST_api_products (H := sample_runtime)
                    negative_price_payload fresh_world)) <> 400%Z.
Proof. split; [reflexivity |]. split; [reflexivity | discriminate]. Qed.

(** C1, witness: the body with price -5 on an empty connected store. *)
Lemma post_negative_price_rejected_witness :
  float_lt0 (price negative_price_payload) = true
  /\ POST_api_products (H := sample_runtime) negative_price_payload fresh_world
     = ({| status := 422; body := JsonValidationErrors |}, fresh_world).
Proof.
  split; [reflexivity |].
  apply (post_negative_price_rejected (H := sample_runtime)
           negative_price_payload fresh_world).
  reflexivity.
Defined.

(** ** The diagnostic endpoint *)

Section Diagnostics.
Context `{Runtime}.

(** C8. On every world [test_database] returns its report, which the
    framework answers with 200: with no database the report says
    "Available but not initialized"; with a database whose listing of
    collections fails it carries the first 50 characters of the error; with
    one whose listing goes through it carries the first 10 names at most. *)
Theorem test_database_total (w : World) :
  exists report w',
    test_database w = (inr report, w')
    /\ GET_test w = ({| status := 200; body := Json report |}, w')
    /\ (length (collections report) <= 10)%nat
    /\ backend report = "✅ Running"
    /\ match db w with
       | None =>
           database report = "⚠️  Available but not initialized"
           /\ collections report = [] /\ w' = w
       | Some d =>
           match hd None (faults d) with
           | Some msg =>
               database report
               = "⚠️  Connected but Error: "
                   +:+ str_prefix 50 (str_exn (PyMongoError msg))
               /\ collections report = []
           | None =>
               database report = "✅ Connected & Working"
               /\ collections report
                  = firstn 10 (map fst (map_to_list (colls d)))
           end
       end.
Proof.
  unfold GET_test, serve, test_database.
  unfold try_except, bind, get_state, update, modify, in_world, driver, ret,
    list_collection_names, round_trip.
  destruct w as [[d |] env]; cbn [db fst snd].
  - destruct (hd None (faults d)) as [msg |] eqn:Hhd; cbn [fst snd].
    + eexists _, _. split; [reflexivity |]. split; [reflexivity |].
      split; [cbn; lia |]. split; [reflexivity |]. split; reflexivity.
    + eexists _, _. split; [reflexivity |]. split; [reflexivity |].
      split; [apply firstn_le_length |].
      split; [reflexivity |]. split; reflexivity.
  - eexists _, _. split; [reflexivity |]. split; [reflexivity |].
    split; [cbn; lia |]. split; [reflexivity |]. repeat split.
Qed.

End Diagnostics.

(** ** Creation: the round trip *)

Lemma has_oid_below (oid : N) (doc : document) :
  (doc_oid doc < oid)%N -> has_oid oid doc = false.
Proof.
  unfold doc_oid, has_oid.
  destruct (doc !! "_id") as [[] |]; try reflexivity.
  intros Hlt. apply N.eqb_neq. lia.
Qed.

Lemma find_above_max (oid : N) (docs : list document) (new : document) :
  (max_oid docs < oid)%N -> has_oid oid new = true ->
  List.find (has_oid oid) (docs ++ [new]) = Some new.
Proof.
  induction docs as [| doc docs IH]; simpl; intros Hmax Hnew.
  - rewrite Hnew. reflexivity.
  - rewrite has_oid_below by lia. apply IH; [lia | exact Hnew].
Qed.

Lemma find_inserted (docs : list document) (data : document) :
  List.find (has_oid (fresh_oid docs))
    (docs ++ [<["_id" := PObjectId (fresh_oid docs)]> data])
  = Some (<["_id" := PObjectId (fresh_oid docs)]> data).
Proof.
  apply find_above_max.
  - unfold fresh_oid. lia.
  - unfold has_oid. rewrite lookup_insert_eq. apply N.eqb_refl.
Qed.

Lemma validate_list_str_map_PStr (l : list string) :
  validate_list_str (map PStr l) = Some l.
Proof. induction l as [| s l IH]; simpl; [| rewrite IH]; reflexivity. Qed.

Lemma validate_dumped_optional_str (o : option string) :
  validate_optional_str (dump_optional_str o) = Some o.
Proof. destruct o; reflexivity. Qed.

Lemma validate_dumped_colors (o : option (list string)) :
  validate_optional_list_str (py_or (dump_optional_list_str o) (PList []))
  = Some (Some (default [] o)).
Proof.
  destruct o as [[| c l] |]; try reflexivity.
  unfold py_or. cbn [dump_optional_list_str map py_bool default Datatypes.id].
  unfold validate_optional_list_str.
  change (PStr c :: map PStr l) with (map PStr (c :: l)).
  rewrite validate_list_str_map_PStr. reflexivity.
Qed.

Section RoundTrip.
Context `{Runtime}.

Lemma stored_payload_fields (oid : N) (payload : ProductCreate) :
  let doc := <["_id" := PObjectId oid]> (model_dump payload) in
  doc !! "_id" = Some (PObjectId oid)
  /\ doc !! "title" = Some (PStr (title payload))
  /\ doc !! "description" = Some (dump_optional_str (description payload))
  /\ doc !! "price" = Some (PFloat (price payload))
  /\ doc !! "category" = Some (PStr (category payload))
  /\ doc !! "in_stock" = Some (PBool (in_stock payload))
  /\ doc !! "image" = Some (dump_optional_str (image payload))
  /\ doc !! "colors" = Some (dump_optional_list_str (colors payload)).
Proof. repeat split; vm_compute; reflexivity. Qed.

Lemma serialize_stored_payload (oid : N) (payload : ProductCreate) :
  float_ge0 (price payload) = true ->
  serialize_product (<["_id" := PObjectId oid]> (model_dump payload))
  = inr (created_product oid payload).
Proof.
  intros Hge.
  destruct (stored_payload_fields oid payload)
    as (Hid & Ht & Hd & Hp & Hc & Hs & Hi & Hcs).
  unfold serialize_product, dict_get, dict_get_default.
  rewrite Hid, Ht, Hd, Hp, Hc, Hs, Hi, Hcs.
  cbn [default Datatypes.id py_float py_str py_bool].
  unfold ProductOut_init. cbn [validate_str].
  rewrite !validate_dumped_optional_str, validate_dumped_colors.
  unfold ProductCreate_validate. cbn [price]. rewrite Hge.
  reflexivity.
Qed.

Lemma create_product_healthy (payload : ProductCreate) (w : World) (d : Database) :
  db w = Some d -> float_ge0 (price payload) = true ->
  check_schema payload = inr tt -> healthy 2 d = true ->
  create_product payload w
  = (inr (created_product (fresh_oid (collection d "product")) payload),
     set_db (after_round_trip
               (snd (insert_one "product" (model_dump payload)
                       (after_round_trip d)))) w).
Proof.
  intros Hdb Hge Hschema Hok.
  destruct (healthy_S _ _ Hok) as [Hhd Hok1].
  destruct (healthy_S _ _ Hok1) as [Hhd1 _].
  unfold create_product, try_except. unfold bind at 1. unfold lift at 1.
  rewrite Hschema. unfold bind at 1.
  rewrite (create_document_healthy w d "product" _ Hdb Hhd).
  unfold bind at 1. unfold lift at 1, ObjectId. rewrite parse_str_oid.
  unfold bind, driver, find_one, round_trip, lift.
  cbn [db set_db].
  change (faults (snd (insert_one "product" (model_dump payload)
                         (after_round_trip d))))
    with (faults (after_round_trip d)).
  rewrite Hhd1, collection_after_round_trip, collection_insert_one,
    collection_after_round_trip, find_inserted.
  rewrite (serialize_stored_payload _ payload Hge). reflexivity.
Qed.

(** C5 (as amended). On a connected store whose next two round trips go
    through, creating a payload that passes the validations returns a
    Product with the title, price, category, in_stock, description and
    image of the payload and with its colors in their order, a null colors
    coming back as the empty list; the document is stored last, and every
    listing that returns and reaches it holds the same Product. *)
Theorem create_product_round_trip
    (payload : ProductCreate) (w : World) (d : Database) :
  db w = Some d -> float_ge0 (price payload) = true ->
  check_schema payload = inr tt -> healthy 2 d = true ->
  exists out w' d',
    create_product payload w = (inr out, w') /\ db w' = Some d'
    /\ collection d' "product"
       = collection d "product"
           ++ [<["_id" := PObjectId (fresh_oid (collection d "product"))]>
                 (model_dump payload)]
    /\ title (base out) = title payload
    /\ price (base out) = price payload
    /\ category (base out) = category payload
    /\ in_stock (base out) = in_stock payload
    /\ description (base out) = description payload
    /\ image (base out) = image payload
    /\ colors (base out) = Some (default [] (colors payload))
    /\ (forall l, colors payload = Some l -> colors (base out) = colors payload)
    /\ forall limit outs w'',
         list_products limit w' = (inr outs, w'') ->
         (length (collection d "product")
          < Z.to_nat (limit_or_20 limit))%nat ->
         In out outs.
Proof.
  intros Hdb Hge Hschema Hok.
  set (oid := fresh_oid (collection d "product")).
  set (d' := after_round_trip
               (snd (insert_one "product" (model_dump payload)
                       (after_round_trip d)))).
  assert (Hcoll : collection d' "product"
                  = collection d "product"
                      ++ [<["_id" := PObjectId oid]> (model_dump payload)]).
  { unfold d'. rewrite collection_after_round_trip, collection_insert_one,
      collection_after_round_trip. reflexivity. }
  exists (created_product oid payload), (set_db d' w), d'.
  split; [apply (create_product_healthy payload w d Hdb Hge Hschema Hok) |].
  split; [reflexivity |]. split; [exact Hcoll |].
  do 7 (split; [reflexivity |]).
  split; [intros l Hl; cbn [created_product base colors]; rewrite Hl;
          reflexivity |].
  intros limit outs w'' Hlist Hreach.
  destruct (list_products_inr limit _ outs w'' Hlist)
    as (w1 & d1 & Hseed & Hdb1 & _ & Hcomp & _).
  assert (Hsame : collection d1 "product" = collection d' "product").
  { destruct (hd None (faults d')) as [msg |] eqn:Hhd.
    - rewrite (ensure_seed_products_count_fails (set_db d' w) d' msg eq_refl Hhd)
        in Hseed. discriminate.
    - rewrite (ensure_seed_products_nonempty (set_db d' w) d' eq_refl Hhd)
        in Hseed.
      + assert (Hw1 : w1 = set_db (after_round_trip d') (set_db d' w))
          by congruence.
        subst w1. change (Some (after_round_trip d') = Some d1) in Hdb1.
        assert (Hd1 : d1 = after_round_trip d') by congruence.
        subst d1. apply collection_after_round_trip.
      + rewrite Hcoll. destruct (collection d "product"); discriminate. }
  rewrite Hsame, Hcoll in Hcomp.
  rewrite firstn_all2 in Hcomp by (rewrite length_app; simpl; lia).
  apply (list_comp_In _ _ _ (<["_id" := PObjectId oid]> (model_dump payload))
           _ Hcomp).
  - apply in_or_app. right. left. reflexivity.
  - apply (serialize_stored_payload oid payload Hge).
Qed.

End RoundTrip.

(** C5, counterexample: the body [{"title": "Tag Tee", "price": 25,
    "colors": null}] is valid and comes back with colors [[]], not null. *)
Lemma create_product_null_colors_differ :
  float_ge0 (price null_colors_payload) = true
  /\ exists out w',
       create_product (H := sample_runtime) null_colors_payload fresh_world
       = (inr out, w')
       /\ colors null_colors_payload = None
       /\ colors (base out) = Some []
       /\ colors (base out) <> colors null_colors_payload.
Proof.
  split; [reflexivity |]. eexists _, _.
  split; [vm_compute; reflexivity |].
  split; [reflexivity |]. split; [reflexivity | discriminate].
Qed.

(** C5, witness: a payload with two colors on an empty connected store. *)
Lemma create_product_round_trip_witness :
  exists out w',
    create_product (H := sample_runtime) sample_payload fresh_world
    = (inr out, w')
    /\ title (base out) = "Tag Tee"
    /\ price (base out) = float_lit 25
    /\ colors (base out) = Some ["#000000"; "#FFFFFF"].
Proof.
  destruct (create_product_round_trip (H := sample_runtime) sample_payload
              fresh_world empty_database eq_refl eq_refl eq_refl eq_refl)
    as (out & w' & d' & Hrun & _ & _ & Ht & Hp & _ & _ & _ & _ & Hc & _).
  exists out, w'. split; [exact Hrun |].
  split; [exact Ht |]. split; [exact Hp | exact Hc].
Defined.

(** ** The handlers on concrete worlds *)

(** With no database the listing is answered 500 with the text of the
    adapter's exception, and the diagnostic endpoint 200. *)
Example offline_listing :
  fst (GET_api_products (H := sample_runtime) None offline_world)
  = {| status := 500; body := JsonDetail "Database not available" |}.
Proof. reflexivity. Qed.

Example offline_diagnostics :
  exists report,
    fst (GET_test (H := sample_runtime) offline_world)
    = {| status := 200; body := Json report |}
    /\ database report = "⚠️  Available but not initialized".
Proof. eexists. split; reflexivity. Qed.

(** A body whose price is -Infinity or a NaN fails the model, and the 422
    cannot be rendered: the plain 500, and the world as it was. *)
Example post_minus_infinity :
  float_lt0 (price minus_infinity_payload) = true
  /\ POST_api_products (H := sample_runtime) minus_infinity_payload fresh_world
     = ({| status := 500; body := PlainInternalServerError |}, fresh_world).
Proof. split; reflexivity. Qed.

Example post_nan :
  POST_api_products (H := sample_runtime)
    {| title := "Tag Tee"; description := None; price := S754_nan;
       category := "streetwear"; in_stock := true; image := None;
       colors := Some [] |} fresh_world
  = ({| status := 500; body := PlainInternalServerError |}, fresh_world).
Proof. reflexivity. Qed.

(** Each falsy colors is stored, and the empty list comes out. *)
Example falsy_colors_examples :
  Forall (fun v =>
            exists p,
              serialize_product (H := sample_runtime)
                (<["colors" := v]> title_only_doc) = inr p
              /\ colors (base p) = Some [])
    [PNone; PBool false; PInt 0; PStr EmptyString; PList []].
Proof. repeat constructor; eexists; split; vm_compute; reflexivity. Qed.

(** A valid payload on an empty connected store: created under the first
    identifier, and listed. *)
Example create_then_list :
  exists out w' outs w'',
    POST_api_products (H := sample_runtime) sample_payload fresh_world
    = ({| status := 200; body := Json out |}, w')
    /\ GET_api_products (H := sample_runtime) None w'
       = ({| status := 200; body := Json outs |}, w'')
    /\ outs = [out].
Proof. eexists _, _, _, _. repeat split; vm_compute; reflexivity. Qed.

(** * Further properties of the handlers *)

(** ** Creation: what a failure leaves behind *)

Section CreationFailures.
Context `{Runtime}.



(** X2. A failure that comes before the insert leaves the world as it was:
    when [schemas.Product] rejects the payload, and when there is no
    database, [create_product] raises [HTTPException] 400 with the text of
    that exception and nothing is stored. *)
Theorem create_product_fails_before_insert
    (payload : ProductCreate) (w : World) (e : exn) :
  check_schema payload = inl e \/ (check_schema payload = inr tt /\ db w = None
                                   /\ e = StoreUnavailable) ->
  create_product payload w = (inl (HTTPException 400 (str_exn e)), w).
Proof.
  unfold create_product, try_except, bind, lift, raise, create_document.
  intros [-> | (-> & -> & ->)]; reflexivity.
Qed.

(** X3. The insert and the read back are two steps: when the insert goes
    through and [find_one] then fails, [create_product] raises
    [HTTPException] 400 with the text of that failure, and the document is
    in the collection all the same. *)
Theorem create_product_fails_after_insert
    (payload : ProductCreate) (w : World) (d : Database) (msg : string) :
  db w = Some d -> check_schema payload = inr tt ->
  hd None (faults d) = None -> hd None (tl (faults d)) = Some msg ->
  exists d',
    create_product payload w
    = (inl (HTTPException 400 (str_exn (PyMongoError msg))), set_db d' w)
    /\ collection d' "product"
       = collection d "product"
           ++ [<["_id" := PObjectId (fresh_oid (collection d "product"))]>
                 (model_dump payload)].
Proof.
  intros Hdb Hschema Hhd Hhd1.
  exists (after_round_trip
            (snd (insert_one "product" (model_dump payload) (after_round_trip d)))).
  split.
  - unfold create_product, try_except. unfold bind at 1. unfold lift at 1.
    rewrite Hschema. unfold bind at 1.
    rewrite (create_document_healthy w d "product" _ Hdb Hhd).
    unfold bind at 1. unfold lift at 1, ObjectId. rewrite parse_str_oid.
    unfold bind, driver, find_one, round_trip, raise.
    cbn [db set_db].
    change (faults (snd (insert_one "product" (model_dump payload)
                           (after_round_trip d))))
      with (tl (faults d)).
    rewrite Hhd1. reflexivity.
  - rewrite collection_after_round_trip, collection_insert_one,
      collection_after_round_trip. reflexivity.
Qed.

End CreationFailures.

(** X2, witness: the payload with price -5 handed to the handler itself,
    which the sample [schemas.Product] rejects. *)
Lemma create_product_fails_before_insert_witness :
  create_product (H := sample_runtime) negative_price_payload fresh_world
  = (inl (HTTPException 400 "validation error for Product"), fresh_world).
Proof.
  apply (create_product_fails_before_insert (H := sample_runtime)
           negative_price_payload fresh_world (ValidationError "Product")).
  left. reflexivity.
Defined.

(** X3, witness: the second round trip of an empty store fails. *)
Lemma create_product_fails_after_insert_witness :
  exists d',
    create_product (H := sample_runtime) sample_payload
      (scheduled_world [None; Some "timed out"])
    = (inl (HTTPException 400 "timed out"),
       set_db d' (scheduled_world [None; Some "timed out"]))
    /\ length (collection d' "product") = 1%nat.
Proof.
  destruct (create_product_fails_after_insert (H := sample_runtime)
              sample_payload (scheduled_world [None; Some "timed out"])
              _ "timed out" eq_refl eq_refl eq_refl eq_refl)
    as (d' & Hrun & Hcoll).
  exists d'. split; [exact Hrun |]. rewrite Hcoll. reflexivity.
Defined.

(** ** Listing: failures, order and repeated calls *)

Lemma list_comp_all {A B} (f : A -> exn + B) (g : A -> B) xs :
  Forall (fun x => f x = inr (g x)) xs -> list_comp f xs = inr (map g xs).
Proof.
  induction 1 as [| x xs Hx _ IH]; simpl; [reflexivity |].
  rewrite Hx, IH. reflexivity.
Qed.

Lemma list_comp_some_fails {A B} (f : A -> exn + B) xs x :
  In x xs -> (exists e, f x = inl e) -> exists e, list_comp f xs = inl e.
Proof.
  induction xs as [| x' xs IH]; simpl; [contradiction |].
  intros [-> | Hin] Hfx.
  - destruct Hfx as [e ->]. eauto.
  - destruct (f x'); [eauto |].
    destruct (IH Hin Hfx) as [e ->]. eauto.
Qed.

Section ListingFacts.
Context `{Runtime}.

(** X4. With no database nothing is seeded: the listing raises
    [HTTPException] 500 with the text of the adapter's exception, for every
    limit, and the world is as it was. *)
Theorem list_products_offline (limit : option Z) (w : World) :
  db w = None ->
  list_products limit w
  = (inl (HTTPException 500 (str_exn StoreUnavailable)), w).
Proof.
  intros Hdb. unfold list_products. unfold bind at 1.
  rewrite (ensure_seed_products_offline w Hdb).
  unfold try_except, bind, get_documents, raise. rewrite Hdb. reflexivity.
Qed.

(** A listing on a store that has products writes nothing, whatever fails. *)
Lemma list_products_stocked_no_write limit w d :
  db w = Some d -> collection d "product" <> [] ->
  exists r d', list_products limit w = (r, set_db d' w)
    /\ colls d' = colls d /\ name d' = name d.
Proof.
  intros Hdb Hne. unfold list_products. unfold bind at 1.
  destruct (hd None (faults d)) as [msg |] eqn:Hhd.
  - rewrite (ensure_seed_products_count_fails w d msg Hdb Hhd).
    eexists _, (after_round_trip d). split; [reflexivity |]. split; reflexivity.
  - rewrite (ensure_seed_products_nonempty w d Hdb Hhd Hne).
    destruct (fetch_state limit (set_db (after_round_trip d) w)) as [r Hr].
    rewrite Hr. cbn [db set_db].
    eexists r, (after_round_trip (after_round_trip d)).
    split; [reflexivity |]. split; reflexivity.
Qed.

(** X5. Seeding happens once: after a listing that returned, a further
    listing, whatever its limit and its outcome, leaves every collection of
    the store as it is. *)
Theorem list_products_twice_no_write
    (limit limit' : option Z) (w w1 : World) (outs : list ProductOut) :
  list_products limit w = (inr outs, w1) ->
  exists d1 r d2,
    db w1 = Some d1
    /\ list_products limit' w1 = (r, set_db d2 w1)
    /\ colls d2 = colls d1.
Proof.
  intros Hrun.
  destruct (list_products_inr limit w outs w1 Hrun)
    as (w0 & d0 & Hseed & Hdb0 & _ & _ & ->).
  pose proof (ensure_seed_products_leaves_products w w0 d0 Hseed Hdb0) as Hne.
  destruct (list_products_stocked_no_write limit'
              (set_db (after_round_trip d0) w0) (after_round_trip d0)
              eq_refl Hne)
    as (r & d2 & Hrun2 & Hcolls & _).
  exists (after_round_trip d0), r, d2. auto.
Qed.

(** X6. The listing is all or nothing: on a store that has products and
    whose two round trips go through, one document among those fetched that
    does not serialize makes the handler raise [HTTPException] 500, and no
    product is returned. *)
Theorem list_products_one_bad_document
    (limit : option Z) (w : World) (d : Database) (doc : document) :
  db w = Some d -> healthy 2 d = true ->
  In doc (firstn (Z.to_nat (limit_or_20 limit)) (collection d "product")) ->
  serializable doc = false ->
  exists e d',
    list_products limit w = (inl (HTTPException 500 (str_exn e)), set_db d' w)
    /\ colls d' = colls d.
Proof.
  intros Hdb Hok Hin Hbad.
  destruct (healthy_S _ _ Hok) as [Hhd Hok1].
  destruct (healthy_S _ _ Hok1) as [Hhd1 _].
  assert (Hne : collection d "product" <> []).
  { intros Hempty. rewrite Hempty, firstn_nil in Hin. contradiction. }
  destruct (list_comp_some_fails serialize_product _ doc Hin
              (serialize_product_rejects doc Hbad)) as [e He].
  exists e, (after_round_trip (after_round_trip d)).
  split; [| reflexivity].
  unfold list_products. unfold bind at 1.
  rewrite (ensure_seed_products_nonempty w d Hdb Hhd Hne).
  unfold try_except, bind, get_documents, round_trip, lift, raise.
  cbn [db set_db].
  rewrite Hhd1, !collection_after_round_trip, He. reflexivity.
Qed.

(** X7. For a limit above 0 or omitted, on a store that has products and
    whose two round trips go through, when the documents fetched all
    serialize the listing is their products in the order of the store, one
    per document: the first [limit or 20] of them, or all when there are
    fewer. *)
Theorem list_products_in_store_order
    (limit : option Z) (w : World) (d : Database) :
  (0 < limit_or_20 limit)%Z ->
  db w = Some d -> healthy 2 d = true -> collection d "product" <> [] ->
  forallb serializable
    (firstn (Z.to_nat (limit_or_20 limit)) (collection d "product")) = true ->
  exists d',
    list_products limit w
    = (inr (map expected_product
              (firstn (Z.to_nat (limit_or_20 limit)) (collection d "product"))),
       set_db d' w)
    /\ colls d' = colls d.
Proof.
  intros _ Hdb Hok Hne Hall.
  destruct (healthy_S _ _ Hok) as [Hhd Hok1].
  destruct (healthy_S _ _ Hok1) as [Hhd1 _].
  exists (after_round_trip (after_round_trip d)). split; [| reflexivity].
  unfold list_products. unfold bind at 1.
  rewrite (ensure_seed_products_nonempty w d Hdb Hhd Hne).
  unfold try_except, bind, get_documents, round_trip, lift, raise.
  cbn [db set_db].
  rewrite Hhd1, !collection_after_round_trip.
  rewrite (list_comp_all serialize_product expected_product); [reflexivity |].
  apply List.Forall_forall. intros doc Hin.
  apply serialize_product_accepts.
  rewrite forallb_forall in Hall. apply Hall, Hin.
Qed.

End ListingFacts.

(** X4, witness: a world whose [db] is [None]. *)
Lemma list_products_offline_witness :
  list_products (H := sample_runtime) (Some 3%Z) offline_world
  = (inl (HTTPException 500 "Database not available"), offline_world).
Proof.
  apply (list_products_offline (H := sample_runtime) (Some 3%Z) offline_world).
  reflexivity.
Defined.

(** X5, witness: a first listing on an empty connected store, then one with
    another limit. *)
Lemma list_products_twice_no_write_witness :
  exists outs w1 d1 r d2,
    list_products (H := sample_runtime) None fresh_world = (inr outs, w1)
    /\ db w1 = Some d1
    /\ list_products (H := sample_runtime) (Some 2%Z) w1 = (r, set_db d2 w1)
    /\ colls d2 = colls d1.
Proof.
  destruct (list_products (H := sample_runtime) None fresh_world)
    as [[e | outs] w1] eqn:Hrun; [vm_compute in Hrun; discriminate |].
  destruct (list_products_twice_no_write (H := sample_runtime)
              None (Some 2%Z) fresh_world w1 outs Hrun)
    as (d1 & r & d2 & Hdb1 & Hrun2 & Hcolls).
  exists outs, w1, d1, r, d2. auto.
Defined.

(** X6, witness: a store whose second product has the price -5.0. *)
Lemma list_products_one_bad_document_witness :
  exists e d',
    list_products (H := sample_runtime) None
      (stocked_world [title_only_doc; negative_price_doc])
    = (inl (HTTPException 500 (sample_str_exn e)),
       set_db d' (stocked_world [title_only_doc; negative_price_doc])).
Proof.
  destruct (list_products_one_bad_document (H := sample_runtime) None
              (stocked_world [title_only_doc; negative_price_doc])
              (stocked_database [title_only_doc; negative_price_doc])
              negative_price_doc eq_refl eq_refl
              (or_intror (or_introl eq_refl)) eq_refl)
    as (e & d' & Hrun & _).
  exists e, d'. exact Hrun.
Defined.

(** X7, witness: a store of two products that serialize, listed with
    [limit=1]. *)
Lemma list_products_in_store_order_witness :
  exists d',
    list_products (H := sample_runtime) (Some 1%Z)
      (stocked_world [title_only_doc; zero_colors_doc])
    = (inr [expected_product (H := sample_runtime) title_only_doc],
       set_db d' (stocked_world [title_only_doc; zero_colors_doc])).
Proof.
  destruct (list_products_in_store_order (H := sample_runtime) (Some 1%Z)
              (stocked_world [title_only_doc; zero_colors_doc])
              (stocked_database [title_only_doc; zero_colors_doc])
              eq_refl eq_refl eq_refl)
    as (d' & Hrun & _); [discriminate | reflexivity |].
  exists d'. exact Hrun.
Defined.

(** ** Serialization: the fields it reads, and storing its result again *)

Section SerializationMore.
Context `{Runtime}.

(** X8. [serialize_product] reads eight keys and no other: a value stored
    under any other key (a timestamp, say) changes neither the product nor
    the exception. *)
Theorem serialize_product_ignores_other_keys
    (doc : document) (key : string) (v : pyval) :
  ~ In key serialized_keys ->
  serialize_product (<[key := v]> doc) = serialize_product doc.
Proof.
  intros Hkey. unfold serialized_keys, product_fields in Hkey. simpl in Hkey.
  unfold serialize_product, dict_get, dict_get_default.
  rewrite !lookup_insert_ne by (intros Heq; apply Hkey; rewrite Heq; auto 10).
  reflexivity.
Qed.

(** X9. A product that came out of [serialize_product] is in normal form:
    dumped and stored again under any identifier, it serializes to the same
    fields. *)
Theorem serialize_product_of_dumped_product
    (doc : document) (p : ProductOut) (oid : N) :
  serialize_product doc = inr p ->
  serialize_product (<["_id" := PObjectId oid]> (model_dump (base p)))
  = inr {| id := str_oid oid; base := base p |}.
Proof.
  intros Hp. destruct (serialize_product_inv doc p Hp) as [Hok ->].
  assert (Hge : float_ge0 (price (base (expected_product doc))) = true).
  { revert Hok. unfold serializable. rewrite !andb_true_iff.
    intros [[[[[Hprice _] _] _] _] _]. apply (price_accepted doc Hprice). }
  rewrite (serialize_stored_payload oid _ Hge). reflexivity.
Qed.

End SerializationMore.

(** X8, witness: a [created_at] field beside the title. *)
Lemma serialize_product_ignores_other_keys_witness :
  serialize_product (H := sample_runtime)
    (<["created_at" := PInt 1700000000]> title_only_doc)
  = serialize_product (H := sample_runtime) title_only_doc.
Proof.
  apply (serialize_product_ignores_other_keys (H := sample_runtime)).
  unfold serialized_keys, product_fields. simpl.
  intros [Hk | [Hk | [Hk | [Hk | [Hk | [Hk | [Hk | [Hk | []]]]]]]]];
    discriminate Hk.
Defined.

(** X9, witness: the document that holds a title only. *)
Lemma serialize_product_of_dumped_product_witness :
  serialize_product (H := sample_runtime)
    (<["_id" := PObjectId 7]>
       (model_dump (base (expected_product (H := sample_runtime) title_only_doc))))
  = inr {| id := "0x7";
           base := base (expected_product (H := sample_runtime) title_only_doc) |}.
Proof.
  apply (serialize_product_of_dumped_product (H := sample_runtime)
           title_only_doc (expected_product (H := sample_runtime) title_only_doc)
           7%N).
  reflexivity.
Defined.

(** ** The diagnostic endpoint: what the report is made of *)

Lemma str_prefix_len (n : nat) (s : string) : (str_len (str_prefix n s) <= n)%nat.
Proof.
  revert n. induction s as [| c s IH]; intros n; simpl; [lia |].
  destruct (is_continuation c) eqn:Hc; simpl; rewrite ?Hc.
  - apply IH.
  - destruct n as [| n]; simpl; [lia |]. rewrite Hc. specialize (IH n). lia.
Qed.

Lemma str_prefix_is_prefix (n : nat) (s : string) :
  exists rest, s = str_prefix n s +:+ rest.
Proof.
  revert n. induction s as [| c s IH]; intros n; cbn [str_prefix].
  - exists EmptyString. reflexivity.
  - destruct (is_continuation c).
    + destruct (IH n) as [rest Hrest]. exists rest.
      change (String c s = String c (str_prefix n s +:+ rest)).
      f_equal. exact Hrest.
    + destruct n as [| n].
      * exists (String c s). reflexivity.
      * destruct (IH n) as [rest Hrest]. exists rest.
        change (String c s = String c (str_prefix n s +:+ rest)).
      f_equal. exact Hrest.
Qed.

Section DiagnosticsMore.
Context `{Runtime}.

(** X10. The report's [database_url] and [database_name] say only whether
    the environment variables are set and not empty, the values written
    inside the [try] being overwritten; [connection_status] is "Connected"
    exactly when there is a database, even when listing its collections
    fails; and the handler writes nothing: the environment, the name and the
    collections of the store are as they were. *)
Theorem test_database_flags (w : World) :
  exists report w',
    test_database w = (inr report, w')
    /\ database_url report
       = Some (if getenv_truthy w "DATABASE_URL" then "✅ Set" else "❌ Not Set")
    /\ database_name report
       = Some (if getenv_truthy w "DATABASE_NAME" then "✅ Set" else "❌ Not Set")
    /\ connection_status report
       = match db w with
         | Some _ => "Connected"
         | None => "Not Connected"
         end
    /\ environ w' = environ w
    /\ match db w, db w' with
       | Some d, Some d' => colls d' = colls d /\ name d' = name d
       | None, None => True
       | _, _ => False
       end.
Proof.
  unfold test_database.
  unfold try_except, bind, get_state, update, modify, in_world, driver, ret,
    list_collection_names, round_trip.
  destruct w as [[d |] env]; cbn [db fst snd].
  - destruct (hd None (faults d)) as [msg |]; cbn [fst snd];
      eexists _, _; repeat split.
  - eexists _, _. repeat split.
Qed.

(** X11. When listing the collections fails, the report shows a prefix of
    the text of the exception that is at most 50 characters long, after the
    words "Connected but Error". *)
Theorem test_database_truncates_error
    (w : World) (d : Database) (msg : string) :
  db w = Some d -> hd None (faults d) = Some msg ->
  exists report w' shown rest,
    test_database w = (inr report, w')
    /\ database report = "⚠️  Connected but Error: " +:+ shown
    /\ (str_len shown <= 50)%nat
    /\ str_exn (PyMongoError msg) = shown +:+ rest.
Proof.
  intros Hdb Hhd.
  destruct (str_prefix_is_prefix 50 (str_exn (PyMongoError msg))) as [rest Hrest].
  unfold test_database.
  unfold try_except, bind, get_state, update, modify, in_world, driver, ret,
    list_collection_names, round_trip.
  destruct w as [dbw env]. cbn [db] in Hdb. subst dbw. cbn [db fst snd].
  rewrite Hhd. cbn [fst snd].
  eexists _, _, (str_prefix 50 (str_exn (PyMongoError msg))), rest.
  split; [reflexivity |]. split; [reflexivity |].
  split; [apply str_prefix_len | exact Hrest].
Qed.

End DiagnosticsMore.

(** X11, witness: a failure whose text has 60 characters. *)
Lemma test_database_truncates_error_witness :
  exists report w' shown rest,
    test_database (H := sample_runtime)
      (scheduled_world
         [Some "0123456789012345678901234567890123456789012345678901234567890"])
    = (inr report, w')
    /\ database report = "⚠️  Connected but Error: " +:+ shown
    /\ (str_len shown <= 50)%nat
    /\ "0123456789012345678901234567890123456789012345678901234567890"
       = shown +:+ rest.
Proof.
  apply (test_database_truncates_error (H := sample_runtime)
           (scheduled_world
              [Some "0123456789012345678901234567890123456789012345678901234567890"])
           _ "0123456789012345678901234567890123456789012345678901234567890"
           eq_refl eq_refl).
Defined.

(** ** Seeding: a failure half way *)

Lemma skipn_S_tl {A} (k : nat) (l : list A) : skipn (S k) l = skipn k (tl l).
Proof. destruct l; [destruct k |]; reflexivity. Qed.

Lemma seed_items_split (k : nat) :
  (k < 4)%nat ->
  seed_items = firstn k seed_items ++ nth k seed_items ∅ :: skipn (S k) seed_items
  /\ length (firstn k seed_items) = k
  /\ insert_all [] (firstn k seed_items) = firstn k seeded_products.
Proof.
  intros Hk. destruct k as [| [| [| [| k]]]]; try lia;
    (split; [reflexivity | split; [reflexivity | vm_compute; reflexivity]]).
Qed.

Section PartialSeeding.
Context `{Runtime}.

Lemma for_each_create_fails pre item post w d coll msg :
  db w = Some d -> healthy (length pre) d = true ->
  hd None (skipn (length pre) (faults d)) = Some msg ->
  for_each (pre ++ item :: post)
    (fun item => create_document coll item ;; ret tt) w
  = (inl (StoreWriteError msg),
     set_db (after_round_trip (insert_many coll pre d)) w).
Proof.
  revert w d. induction pre as [| p pre IH]; intros w d Hdb Hok Hfail.
  - cbn [app for_each]. unfold bind, create_document, round_trip.
    change (hd None (faults d) = Some msg) in Hfail.
    rewrite Hdb, Hfail. reflexivity.
  - destruct (healthy_S _ _ Hok) as [Hhd Hrest].
    cbn [app for_each]. unfold bind at 1. unfold bind at 1.
    rewrite (create_document_healthy w d coll p Hdb Hhd).
    unfold ret at 1.
    change (hd None (skipn (S (length pre)) (faults d)) = Some msg) in Hfail.
    rewrite skipn_S_tl in Hfail.
    rewrite (IH (set_db (snd (insert_one coll p (after_round_trip d))) w)
                (snd (insert_one coll p (after_round_trip d)))
                eq_refl Hrest Hfail).
    reflexivity.
Qed.

(** X12. Seeding is not all or nothing: on an empty connected store, when
    the count and the first [k] inserts go through and the next insert
    fails ([k] below 4), [ensure_seed_products] raises the adapter's
    exception as it is and the first [k] seed documents stay; once one of
    them is stored, a later call finds the collection not empty and leaves
    it at those [k] documents. *)
Theorem ensure_seed_products_partial
    (w : World) (d : Database) (k : nat) (msg : string) :
  db w = Some d -> collection d "product" = [] -> (k < 4)%nat ->
  healthy (S k) d = true ->
  hd None (skipn (S k) (faults d)) = Some msg ->
  exists d',
    ensure_seed_products w = (inl (StoreWriteError msg), set_db d' w)
    /\ collection d' "product" = firstn k seeded_products
    /\ (k <> 0%nat ->
        exists r d'',
          ensure_seed_products (set_db d' w) = (r, set_db d'' w)
          /\ collection d'' "product" = firstn k seeded_products).
Proof.
  intros Hdb Hempty Hk Hok Hfail.
  destruct (healthy_S _ _ Hok) as [Hhd Hrest].
  destruct (seed_items_split k Hk) as (Hsplit & Hlen & Hins).
  set (d' := after_round_trip
               (insert_many "product" (firstn k seed_items) (after_round_trip d))).
  assert (Hcoll : collection d' "product" = firstn k seeded_products).
  { unfold d'. rewrite collection_after_round_trip, collection_insert_many,
      collection_after_round_trip, Hempty. exact Hins. }
  exists d'. split; [| split].
  - unfold ensure_seed_products. rewrite Hdb.
    unfold bind at 1, driver, count_documents, round_trip. rewrite Hdb, Hhd.
    rewrite collection_after_round_trip, Hempty.
    change (Z.of_nat (length []) =? 0)%Z with true. cbv iota.
    rewrite Hsplit.
    rewrite (for_each_create_fails _ _ _ (set_db (after_round_trip d) w)
               (after_round_trip d) "product" msg eq_refl).
    + reflexivity.
    + rewrite Hlen. exact Hrest.
    + rewrite Hlen. rewrite skipn_S_tl in Hfail. exact Hfail.
  - exact Hcoll.
  - intros Hk0.
    assert (Hne : collection d' "product" <> []).
    { rewrite Hcoll. destruct k as [| k]; [congruence | discriminate]. }
    destruct (hd None (faults d')) as [msg' |] eqn:Hhd'.
    + eexists _, (after_round_trip d').
      split; [apply (ensure_seed_products_count_fails (set_db d' w) d' msg'
                       eq_refl Hhd') |].
      rewrite collection_after_round_trip. exact Hcoll.
    + eexists _, (after_round_trip d').
      split; [apply (ensure_seed_products_nonempty (set_db d' w) d'
                       eq_refl Hhd' Hne) |].
      rewrite collection_after_round_trip. exact Hcoll.
Qed.

End PartialSeeding.

(** X12, witness: the third insert into an empty store fails. *)
Lemma ensure_seed_products_partial_witness :
  exists d',
    ensure_seed_products (H := sample_runtime)
      (scheduled_world [None; None; None; Some "disk full"])
    = (inl (StoreWriteError "disk full"),
       set_db d' (scheduled_world [None; None; None; Some "disk full"]))
    /\ collection d' "product" = firstn 2 seeded_products.
Proof.
  destruct (ensure_seed_products_partial (H := sample_runtime)
              (scheduled_world [None; None; None; Some "disk full"])
              _ 2 "disk full" eq_refl eq_refl)
    as (d' & Hrun & Hcoll & _); [lia | reflexivity | reflexivity |].
  exists d'. split; [exact Hrun | exact Hcoll].
Defined.

(** ** Creation before the first listing *)

Section CreateThenList.
Context `{Runtime}.

(** X13. Only the listing seeds, and only an empty collection: when a
    product is created on an empty connected store before any listing, every
    later listing finds the collection not empty, and the store keeps that
    one document; the four seed products are never inserted. *)
Theorem create_product_first_prevents_seeding
    (payload : ProductCreate) (w : World) (d : Database) :
  db w = Some d -> collection d "product" = [] ->
  float_ge0 (price payload) = true -> check_schema payload = inr tt ->
  healthy 2 d = true ->
  exists out w',
    create_product payload w = (inr out, w')
    /\ forall limit,
         exists r d'',
           list_products limit w' = (r, set_db d'' w')
           /\ collection d'' "product"
              = [<["_id" := PObjectId 1]> (model_dump payload)].
Proof.
  intros Hdb Hempty Hge Hschema Hok.
  set (d' := after_round_trip
               (snd (insert_one "product" (model_dump payload)
                       (after_round_trip d)))).
  assert (Hcoll : collection d' "product"
                  = [<["_id" := PObjectId 1]> (model_dump payload)]).
  { unfold d'. rewrite collection_after_round_trip, collection_insert_one,
      collection_after_round_trip, Hempty. reflexivity. }
  exists (created_product (fresh_oid (collection d "product")) payload),
    (set_db d' w).
  split; [apply (create_product_healthy payload w d Hdb Hge Hschema Hok) |].
  intros limit.
  destruct (list_products_stocked_no_write limit (set_db d' w) d' eq_refl)
    as (r & d'' & Hrun & Hcolls & _).
  { rewrite Hcoll. discriminate. }
  exists r, d''. split; [exact Hrun |].
  unfold collection in *. rewrite Hcolls. exact Hcoll.
Qed.

End CreateThenList.

(** X13, witness: the sample payload on an empty connected store. *)
Lemma create_product_first_prevents_seeding_witness :
  exists out w',
    create_product (H := sample_runtime) sample_payload fresh_world
    = (inr out, w')
    /\ exists r d'',
         list_products (H := sample_runtime) None w' = (r, set_db d'' w')
         /\ length (collection d'' "product") = 1%nat.
Proof.
  destruct (create_product_first_prevents_seeding (H := sample_runtime)
              sample_payload fresh_world empty_database
              eq_refl eq_refl eq_refl eq_refl eq_refl)
    as (out & w' & Hrun & Hlist).
  exists out, w'. split; [exact Hrun |].
  destruct (Hlist None) as (r & d'' & Hrun2 & Hcoll).
  exists r, d''. split; [exact Hrun2 |]. rewrite Hcoll. reflexivity.
Defined.
